(** * Car Rental API: a shallow embedding of [main.py] and [schemas.py]

    The request handlers of the FastAPI application are embedded as
    functions in a state-and-exception monad over the MongoDB database.
    Documents are Python dictionaries (finite maps from field names to
    values), collections are document lists in storage order, and the
    clock readings and the driver-generated identifiers are inputs of
    each handler.

    Floats are binary64 and [round(x, 2)] is exact.  Datetimes are
    instants in microseconds; the store keeps them to the millisecond.
    Requests are handled one at a time: the interleaving of concurrent
    requests is not modelled.  Time zones and the text of an ISO-8601
    rendering are not modelled either. *)

From Stdlib Require Import ZArith Lia Floats Ascii String.
From Stdlib.Strings Require Import Byte.
From stdpp Require Import base tactics option list gmap strings.

Local Open Scope string_scope.
Local Open Scope Z_scope.

(** ** bson.ObjectId: twelve bytes, rendered as 24 lowercase hex digits *)

Record ObjectId := mkObjectId {
  oid0 : byte; oid1 : byte; oid2 : byte; oid3 : byte;
  oid4 : byte; oid5 : byte; oid6 : byte; oid7 : byte;
  oid8 : byte; oid9 : byte; oid10 : byte; oid11 : byte
}.

#[global] Instance byte_eq_decision : EqDecision byte.
Proof.
  intros x y. destruct (Byte.eqb x y) eqn:E.
  - left. by apply Byte.byte_dec_bl.
  - right. intros ->. by rewrite Byte.byte_dec_lb in E.
Defined.

#[global] Instance ObjectId_eq_decision : EqDecision ObjectId.
Proof. solve_decision. Defined.

Definition oid_bytes (o : ObjectId) : list byte :=
  [oid0 o; oid1 o; oid2 o; oid3 o; oid4 o; oid5 o;
   oid6 o; oid7 o; oid8 o; oid9 o; oid10 o; oid11 o].

Definition hex_digit (n : N) : ascii :=
  if (n <? 10)%N then ascii_of_N (48 + n) else ascii_of_N (87 + n).

Definition hex_value (c : ascii) : option N :=
  let n := N_of_ascii c in
  if ((48 <=? n) && (n <=? 57))%N then Some (n - 48)%N
  else if ((97 <=? n) && (n <=? 102))%N then Some (n - 87)%N
  else if ((65 <=? n) && (n <=? 70))%N then Some (n - 55)%N
  else None.

Definition byte_hex_hi (b : byte) : ascii := hex_digit (Byte.to_N b / 16).
Definition byte_hex_lo (b : byte) : ascii := hex_digit (Byte.to_N b mod 16).

Definition byte_of_hex (c1 c2 : ascii) : option byte :=
  match hex_value c1, hex_value c2 with
  | Some h, Some l => Byte.of_N (16 * h + l)
  | _, _ => None
  end.

(** [binascii.hexlify] *)
Fixpoint hexlify (l : list byte) : string :=
  match l with
  | [] => EmptyString
  | b :: l' => String (byte_hex_hi b) (String (byte_hex_lo b) (hexlify l'))
  end.

(** [bytes.fromhex] on a string of hex digit pairs *)
Fixpoint bytes_fromhex (s : string) : option (list byte) :=
  match s with
  | EmptyString => Some []
  | String c1 (String c2 s') =>
      match byte_of_hex c1 c2, bytes_fromhex s' with
      | Some b, Some l => Some (b :: l)
      | _, _ => None
      end
  | String _ EmptyString => None
  end.

(** [str(oid)] *)
Definition ObjectId_str (o : ObjectId) : string := hexlify (oid_bytes o).

(** [ObjectId(s)] for a string [s]: 24 characters that [bytes.fromhex]
    accepts; [None] stands for [InvalidId]. *)
Definition ObjectId_of_str (s : string) : option ObjectId :=
  if Nat.eqb (String.length s) 24 then
    match bytes_fromhex s with
    | Some [a; b; c; d; e; f; g; h; i; j; k; l] =>
        Some (mkObjectId a b c d e f g h i j k l)
    | _ => None
    end
  else None.

(** [ObjectId.is_valid(s)]: false on the empty string, otherwise whether
    the constructor accepts [s]. *)
Definition ObjectId_is_valid (s : string) : bool :=
  match s with
  | EmptyString => false
  | _ => match ObjectId_of_str s with Some _ => true | None => false end
  end.

(** ** datetime and timedelta

    A [datetime] is an instant counted in microseconds from the start of
    0001-01-01 (proleptic Gregorian ordinal day 1), the resolution of
    Python's [datetime].  Time zones are not modelled: every instant is
    UTC. *)

Definition datetime := Z.

Definition is_leap (year : Z) : bool :=
  (year mod 4 =? 0) && (negb (year mod 100 =? 0) || (year mod 400 =? 0)).

Definition days_before_year (year : Z) : Z :=
  let y := year - 1 in y * 365 + y / 4 - y / 100 + y / 400.

Definition days_in_month (year month : Z) : Z :=
  if month =? 2 then (if is_leap year then 29 else 28)
  else if (month =? 4) || (month =? 6) || (month =? 9) || (month =? 11)
       then 30 else 31.

Fixpoint days_before_month_aux (year : Z) (n : nat) : Z :=
  match n with
  | O => 0
  | S n' => days_before_month_aux year n' + days_in_month year (Z.of_nat n)
  end.

Definition days_before_month (year month : Z) : Z :=
  days_before_month_aux year (Z.to_nat (month - 1)).

Definition ymd2ord (year month day : Z) : Z :=
  days_before_year year + days_before_month year month + day.

Definition us_per_second : Z := 1000000.
Definition seconds_per_day : Z := 86400.
Definition us_per_day : Z := seconds_per_day * us_per_second.

(** [datetime(year, month, day, hour, minute, second, microsecond)] *)
Definition mk_datetime (year month day hour minute second microsecond : Z)
  : datetime :=
  (ymd2ord year month day - 1) * us_per_day
  + (hour * 3600 + minute * 60 + second) * us_per_second
  + microsecond.

(** [timedelta] in Python's normal form: [0 <= seconds < 86400] and
    [0 <= microseconds < 1000000]; [days] carries the sign. *)
Record timedelta := mkTimedelta {
  td_days : Z;
  td_seconds : Z;
  td_microseconds : Z
}.

(** [end - start] *)
Definition datetime_sub (e s : datetime) : timedelta :=
  let us := e - s in
  {| td_days := us / us_per_day;
     td_seconds := (us mod us_per_day) / us_per_second;
     td_microseconds := (us mod us_per_day) mod us_per_second |}.

(** BSON stores a datetime as whole milliseconds. *)
Definition bson_datetime (t : datetime) : datetime := t / 1000 * 1000.

(** ** Python floats (binary64) and the built-in [round(x, 2)] *)

(** Nearest integer to [n / d] for [0 < d], ties to the even neighbour. *)
Definition div_half_even (n d : Z) : Z :=
  let q := n / d in
  let r := n mod d in
  match 2 * r ?= d with
  | Lt => q
  | Gt => q + 1
  | Eq => if Z.even q then q else q + 1
  end.

(** [round(x, 2)]: the exact binary value of [x] is rounded half-even to
    hundredths, and that decimal is converted back to the nearest
    binary64; zeros, infinities and NaN round to themselves. *)
Definition round2 (x : float) : float :=
  match Prim2SF x with
  | S754_finite s m e =>
      let hundredths :=
        if 0 <=? e then 100 * Z.pos m * 2 ^ e
        else div_half_even (100 * Z.pos m) (2 ^ (- e)) in
      match hundredths with
      | Z.pos p =>
          SF2Prim (SFdiv prec emax (S754_finite s p 0) (S754_finite false 100 0))
      | _ => SF2Prim (S754_zero s)
      end
  | _ => x
  end.

(** [float(n)] for a Python int; [None] stands for [OverflowError]. *)
Definition float_of_int (n : Z) : option float :=
  match binary_normalize prec emax n 0 false with
  | S754_infinity _ => None
  | sf => Some (SF2Prim sf)
  end.

(** [x or 0.0] for an optional float: [None], [0.0] and [-0.0] are falsy. *)
Definition float_or_zero (x : option float) : float :=
  match x with
  | Some f => if PrimFloat.eqb f 0 then 0%float else f
  | None => 0%float
  end.

(** ** Values, documents and the database *)

(** The Python values that occur as document fields. *)
Inductive value :=
  | VNone
  | VBool (b : bool)
  | VInt (n : Z)
  | VFloat (f : float)
  | VStr (s : string)
  | VDatetime (t : datetime)
  | VObjectId (o : ObjectId).

(** A Python dict with string keys. *)
Abbreviation pydict := (gmap string value).

(** A stored MongoDB document: the driver-assigned [_id] and the other
    fields.  The dict that [find_one] hands to the program has the key
    ["_id"] next to the keys of [fields]. *)
Record document := mkDocument {
  _id : ObjectId;
  fields : pydict
}.

(** The values of a JSON response.  [serialize_value] renders a datetime
    as its ISO-8601 UTC string; that string is kept symbolic as [JIsoUTC]
    of the instant. *)
Inductive json :=
  | JNull
  | JBool (b : bool)
  | JInt (n : Z)
  | JFloat (f : float)
  | JStr (s : string)
  | JIsoUTC (t : datetime).

Abbreviation jsondict := (gmap string json).

(** The three collections, each in storage order. *)
Inductive collection := car | rental | invoice.

Record DB := mkDB {
  db_car : list document;
  db_rental : list document;
  db_invoice : list document
}.

Definition db_get (c : collection) (db : DB) : list document :=
  match c with
  | car => db_car db
  | rental => db_rental db
  | invoice => db_invoice db
  end.

Definition db_set (c : collection) (l : list document) (db : DB) : DB :=
  match c with
  | car => mkDB l (db_rental db) (db_invoice db)
  | rental => mkDB (db_car db) l (db_invoice db)
  | invoice => mkDB (db_car db) (db_rental db) l
  end.

Definition empty_db : DB := mkDB [] [] [].

(** Truthiness, as [not v] and [v or w] test it. *)
Definition truthy (v : value) : bool :=
  match v with
  | VNone => false
  | VBool b => b
  | VInt n => negb (n =? 0)
  | VFloat f => negb (PrimFloat.eqb f 0)
  | VStr s => negb (String.eqb s EmptyString)
  | VDatetime _ => true
  | VObjectId _ => true
  end.

(** [v == s] for a string literal [s] *)
Definition eq_str (v : option value) (s : string) : bool :=
  match v with
  | Some (VStr s') => String.eqb s' s
  | _ => false
  end.

(** ** Exceptions and the handler monad *)

(** [HTTPException] is what the handlers raise on purpose; any other
    Python exception escapes the handler and is kept by its class name. *)
Inductive exn :=
  | HTTPException (status_code : Z) (detail : string)
  | Unhandled (class_name : string).

(** A computation reads and writes the database and either returns or
    raises; writes made before an exception stay. *)
Definition M (A : Type) : Type := DB → (exn + A) * DB.

#[global] Instance M_ret : MRet M := λ A (a : A) db, (inr a, db).

#[global] Instance M_bind : MBind M := λ A B (f : A → M B) (m : M A) db,
  match m db with
  | (inr a, db') => f a db'
  | (inl e, db') => (inl e, db')
  end.

Definition raise {A} (e : exn) : M A := λ db, (inl e, db).

Definition lift {A} (r : exn + A) : M A := λ db, (r, db).

(** ** The MongoDB driver *)

(** The filters the handlers use: equality of [_id] with an ObjectId, or
    of a field with a string. *)
Inductive query :=
  | ById (o : ObjectId)
  | ByField (k : string) (s : string).

Definition matches (q : query) (d : document) : bool :=
  match q with
  | ById o => bool_decide (_id d = o)
  | ByField k s => eq_str (fields d !! k) s
  end.

(** BSON encoding of a field value on its way into the store. *)
Definition bson_value (v : value) : value :=
  match v with
  | VDatetime t => VDatetime (bson_datetime t)
  | _ => v
  end.

(** The first document of a collection, in storage order, that a filter
    selects, with its position. *)
Definition first_match (q : query) (l : list document)
  : option (nat * document) :=
  list_find (λ d, Is_true (matches q d)) l.

(** [db[c].find_one(q)] *)
Definition find_one (c : collection) (q : query) : M (option document) :=
  λ db, (inr (snd <$> first_match q (db_get c db)), db).

(** [db[c].find(q)]: every match, in storage order *)
Definition find (c : collection) (q : query) : M (list document) :=
  λ db, (inr (filter (λ d, Is_true (matches q d)) (db_get c db)), db).

(** [db[c].update_one(q, {"$set": sets})]: the first match gets the
    fields of [sets]; nothing happens without a match. *)
Definition update_one (c : collection) (q : query) (sets : pydict) : M () :=
  λ db,
    match first_match q (db_get c db) with
    | Some (i, d) =>
        let d' := mkDocument (_id d) ((bson_value <$> sets) ∪ fields d) in
        (inr (), db_set c (<[i := d']> (db_get c db)) db)
    | None => (inr (), db)
    end.

(** [db[c].insert_one(data)]: the driver gives the document the
    identifier [new_id]; the unique index on [_id] refuses an identifier
    that the collection already holds. *)
Definition insert_one (c : collection) (new_id : ObjectId) (data : pydict)
  : M ObjectId :=
  λ db,
    if bool_decide (new_id ∈ (_id <$> db_get c db))
    then (inl (Unhandled "DuplicateKeyError"), db)
    else (inr new_id,
          db_set c (db_get c db ++ [mkDocument new_id (bson_value <$> data)]) db).

(** Modelled from the spec: [create_document] of the persistence accessor
    ([database.py] is not among the sources): "inserts a record, returns
    its newly assigned identifier", the identifier rendered as a string. *)
Definition create_document (c : collection) (new_id : ObjectId) (data : pydict)
  : M string :=
  oid ← insert_one c new_id data;
  mret (ObjectId_str oid).

(** Modelled from the spec: [get_documents] of the persistence accessor:
    "returns all documents in a collection, in storage order". *)
Definition get_documents (c : collection) : M (list document) :=
  λ db, (inr (db_get c db), db).

(** ** Serialization of documents *)

Definition serialize_value (v : value) : json :=
  match v with
  | VObjectId o => JStr (ObjectId_str o)
  | VDatetime t => JIsoUTC t
  | VNone => JNull
  | VBool b => JBool b
  | VInt n => JInt n
  | VFloat f => JFloat f
  | VStr s => JStr s
  end.

(** The dict of a stored document, as [find_one] returns it. *)
Definition to_dict (d : document) : pydict :=
  <["_id" := VObjectId (_id d)]> (fields d).

Definition serialize_doc (d : document) : jsondict :=
  serialize_value <$> to_dict d.

(** ** schemas.py *)

(** [Car(...).model_dump()]; the field constraints [1900 <= year <= 2100]
    and [daily_rate >= 0] raise [ValidationError]. *)
Definition CarSchema (make model : string) (year : Z) (plate_number : string)
    (daily_rate : float) (available : bool) : exn + pydict :=
  if (1900 <=? year) && (year <=? 2100) && PrimFloat.leb 0 daily_rate then
    inr (<["make" := VStr make]> (
         <["model" := VStr model]> (
         <["year" := VInt year]> (
         <["plate_number" := VStr plate_number]> (
         <["daily_rate" := VFloat daily_rate]> (
         <["available" := VBool available]> ∅))))))
  else inl (Unhandled "ValidationError").

(** [Rental(car_id=..., customer_name=...).model_dump()]; [utcnow] is the
    clock reading that the default factory of [start_date] takes. *)
Definition RentalSchema (car_id customer_name : string) (utcnow : datetime)
  : exn + pydict :=
  inr (<["car_id" := VStr car_id]> (
       <["customer_name" := VStr customer_name]> (
       <["start_date" := VDatetime utcnow]> (
       <["end_date" := VNone]> (
       <["status" := VStr "active"]> ∅))))).

(** [Invoice(...).model_dump()]; [customer_name] comes out of a stored
    document and must be a string. *)
Definition InvoiceSchema (rental_id car_id : string) (customer_name : value)
    (start_date end_date : datetime) (days : Z)
    (daily_rate subtotal tax_rate tax_amount total : float) : exn + pydict :=
  match customer_name with
  | VStr name =>
      inr (<["rental_id" := VStr rental_id]> (
           <["car_id" := VStr car_id]> (
           <["customer_name" := VStr name]> (
           <["start_date" := VDatetime start_date]> (
           <["end_date" := VDatetime end_date]> (
           <["days" := VInt days]> (
           <["daily_rate" := VFloat daily_rate]> (
           <["subtotal" := VFloat subtotal]> (
           <["tax_rate" := VFloat tax_rate]> (
           <["tax_amount" := VFloat tax_amount]> (
           <["total" := VFloat total]> (
           <["items" := VNone]> ∅))))))))))))
  | _ => inl (Unhandled "ValidationError")
  end.

(** ** main.py: requests and environment *)

Record CreateCarRequest := mkCreateCarRequest {
  make : string;
  model : string;
  year : Z;
  plate_number : string;
  daily_rate : float
}.

Record StartRentalRequest := mkStartRentalRequest {
  car_id : string;
  customer_name : string
}.

(** [tax_rate: Optional[float] = 0.0]: a body without the key gives
    [Some 0.0], an explicit [null] gives [None]. *)
Record ReturnRentalRequest := mkReturnRentalRequest {
  tax_rate : option float
}.

Definition ReturnRentalRequest_default : ReturnRentalRequest :=
  mkReturnRentalRequest (Some 0%float).

(** What one request takes from outside the program: [now k] is the
    reading of the [k]-th call of the clock, in program order, and
    [new_id] is the identifier the driver generates for the one document
    the request inserts. *)
Record Env := mkEnv {
  now : nat → datetime;
  new_id : ObjectId
}.

(** [ObjectId(s)] *)
Definition ObjectId_ctor (s : string) : exn + ObjectId :=
  match ObjectId_of_str s with
  | Some o => inr o
  | None => inl (Unhandled "InvalidId")
  end.

(** [ObjectId(v)] for a field value: a string is parsed, an ObjectId is
    copied, anything else is a [TypeError]. *)
Definition ObjectId_of_value (v : value) : exn + ObjectId :=
  match v with
  | VStr s => ObjectId_ctor s
  | VObjectId o => inr o
  | _ => inl (Unhandled "TypeError")
  end.

(** [float(v)].  The Car schema stores [daily_rate] as a float; a stored
    string is taken as not numeric. *)
Definition py_float (v : value) : exn + float :=
  match v with
  | VFloat f => inr f
  | VInt n =>
      match float_of_int n with
      | Some f => inr f
      | None => inl (Unhandled "OverflowError")
      end
  | VBool b => inr (if b then 1%float else 0%float)
  | VStr _ => inl (Unhandled "ValueError")
  | _ => inl (Unhandled "TypeError")
  end.

(** [v or w] *)
Definition py_or (v : option value) (w : value) : value :=
  match v with
  | Some x => if truthy x then x else w
  | None => w
  end.

Definition is_number (v : value) : bool :=
  match v with
  | VBool _ | VInt _ | VFloat _ => true
  | _ => false
  end.

(** [end - start] followed by the attribute reads of [duration]: two
    datetimes give a timedelta; two numbers subtract but have no [days];
    any other pair cannot be subtracted. *)
Definition duration_of (e : value) (s : option value) : exn + timedelta :=
  match e, s with
  | VDatetime te, Some (VDatetime ts) => inr (datetime_sub te ts)
  | _, Some vs =>
      if is_number e && is_number vs then inl (Unhandled "AttributeError")
      else inl (Unhandled "TypeError")
  | _, None => inl (Unhandled "TypeError")
  end.

(** [max(1, duration.days + (1 if duration.seconds > 0 else 0))] *)
Definition billed_days (duration : timedelta) : Z :=
  Z.max 1 (td_days duration + (if td_seconds duration >? 0 then 1 else 0)).

(** ** main.py: compute_invoice *)

Definition compute_invoice (car_doc rental_doc : document)
    (tax_rate : option float) (utcnow : datetime) : exn + pydict :=
  let start := fields rental_doc !! "start_date" in
  let end_ := py_or (fields rental_doc !! "end_date") (VDatetime utcnow) in
  match duration_of end_ start with
  | inl e => inl e
  | inr duration =>
      let days := billed_days duration in
      match py_float (default (VFloat 0) (fields car_doc !! "daily_rate")) with
      | inl e => inl e
      | inr daily_rate =>
          match float_of_int days with
          | None => inl (Unhandled "OverflowError")
          | Some fdays =>
              let subtotal := round2 (fdays * daily_rate)%float in
              let tax_amount := round2 (subtotal * float_or_zero tax_rate)%float in
              let total := round2 (subtotal + tax_amount)%float in
              match fields rental_doc !! "customer_name", start, end_ with
              | Some name, Some (VDatetime ts), VDatetime te =>
                  InvoiceSchema (ObjectId_str (_id rental_doc))
                    (ObjectId_str (_id car_doc)) name ts te days daily_rate
                    subtotal (float_or_zero tax_rate) tax_amount total
              | None, _, _ => inl (Unhandled "KeyError")
              | _, _, _ => inl (Unhandled "TypeError")
              end
          end
      end
  end.

(** ** main.py: the handlers *)

(** [serialize_doc(d)] for the result of a [find_one]: [None] has no
    [items]. *)
Definition serialize_found (d : option document) : M jsondict :=
  match d with
  | Some d => mret (serialize_doc d)
  | None => raise (Unhandled "AttributeError")
  end.

Definition read_root : M jsondict :=
  mret {["message" := JStr "Car Rental Backend is running"]}.

Definition list_cars : M (list jsondict) :=
  cars ← get_documents car;
  mret (serialize_doc <$> cars).

Definition add_car (env : Env) (payload : CreateCarRequest) : M jsondict :=
  existing ← find_one car (ByField "plate_number" (plate_number payload));
  match existing with
  | Some _ => raise (HTTPException 400 "Plate number already exists")
  | None =>
      car_data ← lift (CarSchema (make payload) (model payload) (year payload)
                         (plate_number payload) (daily_rate payload) true);
      car_id ← create_document car (new_id env) car_data;
      oid ← lift (ObjectId_ctor car_id);
      created ← find_one car (ById oid);
      serialize_found created
  end.

Definition start_rental (env : Env) (payload : StartRentalRequest)
  : M jsondict :=
  if negb (ObjectId_is_valid (car_id payload)) then
    raise (HTTPException 400 "Invalid car_id")
  else
    oid ← lift (ObjectId_ctor (car_id payload));
    found ← find_one car (ById oid);
    match found with
    | None => raise (HTTPException 404 "Car not found")
    | Some car_doc =>
        if negb (truthy (default (VBool true) (fields car_doc !! "available")))
        then raise (HTTPException 400 "Car is not available")
        else
          rental_data ← lift (RentalSchema (ObjectId_str (_id car_doc))
                                (customer_name payload) (now env 0));
          rental_id ← create_document rental (new_id env) rental_data;
          update_one car (ById (_id car_doc))
            (<["available" := VBool false]> (
             <["updated_at" := VDatetime (now env 1)]> ∅));;
          rid ← lift (ObjectId_ctor rental_id);
          created ← find_one rental (ById rid);
          serialize_found created
    end.

Definition list_active_rentals : M (list jsondict) :=
  rentals ← find rental (ByField "status" "active");
  mret (serialize_doc <$> rentals).

Definition return_rental (env : Env) (rental_id : string)
    (payload : ReturnRentalRequest) : M (jsondict * jsondict) :=
  if negb (ObjectId_is_valid rental_id) then
    raise (HTTPException 400 "Invalid rental_id")
  else
    oid ← lift (ObjectId_ctor rental_id);
    found ← find_one rental (ById oid);
    match found with
    | None => raise (HTTPException 404 "Rental not found")
    | Some rental_doc =>
        if eq_str (fields rental_doc !! "status") "returned" then
          raise (HTTPException 400 "Rental already returned")
        else
          car_oid ← lift (match fields rental_doc !! "car_id" with
                          | Some v => ObjectId_of_value v
                          | None => inl (Unhandled "KeyError")
                          end);
          found_car ← find_one car (ById car_oid);
          match found_car with
          | None => raise (HTTPException 404 "Car for rental not found")
          | Some car_doc =>
              let end_time := now env 0 in
              update_one rental (ById (_id rental_doc))
                (<["end_date" := VDatetime end_time]> (
                 <["status" := VStr "returned"]> (
                 <["updated_at" := VDatetime (now env 1)]> ∅)));;
              update_one car (ById (_id car_doc))
                (<["available" := VBool true]> (
                 <["updated_at" := VDatetime (now env 2)]> ∅));;
              refetched ← find_one rental (ById (_id rental_doc));
              match refetched with
              | None => raise (Unhandled "AttributeError")
              | Some rental_doc' =>
                  invoice_data ← lift (compute_invoice car_doc rental_doc'
                                         (Some (float_or_zero (tax_rate payload)))
                                         (now env 3));
                  invoice_id ← create_document invoice (new_id env) invoice_data;
                  iid ← lift (ObjectId_ctor invoice_id);
                  invoice_doc ← find_one invoice (ById iid);
                  inv ← serialize_found invoice_doc;
                  mret (serialize_doc rental_doc', inv)
              end
          end
    end.

Definition list_invoices : M (list jsondict) :=
  invoices ← get_documents invoice;
  mret (serialize_doc <$> invoices).

Definition get_invoice (invoice_id : string) : M jsondict :=
  if negb (ObjectId_is_valid invoice_id) then
    raise (HTTPException 400 "Invalid invoice_id")
  else
    oid ← lift (ObjectId_ctor invoice_id);
    inv ← find_one invoice (ById oid);
    match inv with
    | None => raise (HTTPException 404 "Invoice not found")
    | Some d => mret (serialize_doc d)
    end.

(** ** The application: routing *)

Inductive http_method := GET | POST.

Inductive body :=
  | NoBody
  | CarBody (p : CreateCarRequest)
  | StartBody (p : StartRentalRequest)
  | ReturnBody (p : ReturnRentalRequest).

(** The shapes of the JSON responses.  [RDiagnostic] is the status object
    of [/test], whose content depends on the process environment. *)
Inductive response :=
  | RObject (d : jsondict)
  | RArray (l : list jsondict)
  | RReturned (rental_json invoice_json : jsondict)
  | RDiagnostic.

Definition respond {A} (f : A → response) (m : M A) : M response :=
  a ← m; mret (f a).

(** The endpoints that [main.py] declares. *)
Inductive endpoint :=
  | EpReadRoot
  | EpListCars
  | EpAddCar
  | EpStartRental
  | EpListActiveRentals
  | EpReturnRental (rental_id : string)
  | EpListInvoices
  | EpGetInvoice (invoice_id : string)
  | EpTestDatabase.

(** The route table.  A path is the list of its segments, which are not
    empty; a path parameter takes any one segment. *)
Definition route (m : http_method) (path : list string) : option endpoint :=
  match m, path with
  | GET, [] => Some EpReadRoot
  | GET, [a] => if bool_decide (a = "test") then Some EpTestDatabase else None
  | GET, [a; c] =>
      if bool_decide (a = "api" ∧ c = "cars") then Some EpListCars
      else if bool_decide (a = "api" ∧ c = "invoices") then Some EpListInvoices
      else None
  | POST, [a; c] =>
      if bool_decide (a = "api" ∧ c = "cars") then Some EpAddCar else None
  | GET, [a; c; d] =>
      if bool_decide (a = "api" ∧ c = "rentals" ∧ d = "active")
      then Some EpListActiveRentals
      else if bool_decide (a = "api" ∧ c = "invoices")
           then Some (EpGetInvoice d)
      else None
  | POST, [a; c; d] =>
      if bool_decide (a = "api" ∧ c = "rentals" ∧ d = "start")
      then Some EpStartRental else None
  | POST, [a; c; rental_id; d] =>
      if bool_decide (a = "api" ∧ c = "rentals" ∧ d = "return")
      then Some (EpReturnRental rental_id) else None
  | _, _ => None
  end.

(** Running an endpoint on a parsed body; a body of the wrong shape is
    the framework's 422. *)
Definition run_endpoint (env : Env) (ep : endpoint) (b : body) : M response :=
  match ep, b with
  | EpReadRoot, _ => respond RObject read_root
  | EpListCars, _ => respond RArray list_cars
  | EpAddCar, CarBody p => respond RObject (add_car env p)
  | EpStartRental, StartBody p => respond RObject (start_rental env p)
  | EpListActiveRentals, _ => respond RArray list_active_rentals
  | EpReturnRental rental_id, ReturnBody p =>
      respond (λ r, RReturned (fst r) (snd r)) (return_rental env rental_id p)
  | EpListInvoices, _ => respond RArray list_invoices
  | EpGetInvoice invoice_id, _ => respond RObject (get_invoice invoice_id)
  | EpTestDatabase, _ => mret RDiagnostic
  | _, _ => raise (HTTPException 422 "Unprocessable Entity")
  end.

(** The application.  A request that no declared route takes is answered
    by the framework: 405 when the path is routed for the other method,
    404 otherwise. *)
Definition app_request (env : Env) (m : http_method) (path : list string) (b : body)
  : M response :=
  match route m path with
  | Some ep => run_endpoint env ep b
  | None =>
      if bool_decide (is_Some (route GET path) ∨ is_Some (route POST path))
      then raise (HTTPException 405 "Method Not Allowed")
      else raise (HTTPException 404 "Not Found")
  end.

(** ** The spec's error taxonomy

    The handlers raise [HTTPException] with a status and a message; the
    three kinds of the taxonomy are told apart by both: a malformed
    identifier is [InvalidInput], a missing record is [NotFound], and the
    other refusals are [InvalidState]. *)

Inductive error_kind := InvalidInput | NotFound | InvalidState.

Definition error_kind_of (e : exn) : option error_kind :=
  match e with
  | HTTPException 404 _ => Some NotFound
  | HTTPException 400 detail =>
      if bool_decide (detail ∈ ["Invalid car_id"; "Invalid rental_id";
                                "Invalid invoice_id"])
      then Some InvalidInput else Some InvalidState
  | _ => None
  end.

(** ** The documents that the handlers write, and the lifecycle invariant *)

(** The rental document that a successful Start stores. *)
Definition started_rental (env : Env) (payload : StartRentalRequest)
    (car_doc : document) : document :=
  mkDocument (new_id env)
    (<["car_id" := VStr (ObjectId_str (_id car_doc))]> (
     <["customer_name" := VStr (customer_name payload)]> (
     <["start_date" := VDatetime (bson_datetime (now env 0))]> (
     <["end_date" := VNone]> (
     <["status" := VStr "active"]> ∅))))).

(** The car document after a successful Start. *)
Definition started_car (env : Env) (car_doc : document) : document :=
  mkDocument (_id car_doc)
    (<["available" := VBool false]> (
     <["updated_at" := VDatetime (bson_datetime (now env 1))]> ∅)
     ∪ fields car_doc).

Definition car_is_available (car_doc : document) : bool :=
  truthy (default (VBool true) (fields car_doc !! "available")).

(** The rental document after the first write of a Return. *)
Definition returned_rental (env : Env) (rental_doc : document) : document :=
  mkDocument (_id rental_doc)
    (<["end_date" := VDatetime (bson_datetime (now env 0))]> (
     <["status" := VStr "returned"]> (
     <["updated_at" := VDatetime (bson_datetime (now env 1))]> ∅))
     ∪ fields rental_doc).

(** The car document after the second write of a Return. *)
Definition returned_car (env : Env) (car_doc : document) : document :=
  mkDocument (_id car_doc)
    (<["available" := VBool true]> (
     <["updated_at" := VDatetime (bson_datetime (now env 2))]> ∅)
     ∪ fields car_doc).

(** The car id that a rental document refers to: [ObjectId(rental["car_id"])]. *)
Definition rental_car_oid (rental_doc : document) : exn + ObjectId :=
  match fields rental_doc !! "car_id" with
  | Some v => ObjectId_of_value v
  | None => inl (Unhandled "KeyError")
  end.

(** The database after the two updates of a Return. *)
Definition db_after_updates (env : Env) (i : nat) (rental_doc : document)
    (j : nat) (car_doc : document) (db : DB) : DB :=
  mkDB (<[j := returned_car env car_doc]> (db_car db))
       (<[i := returned_rental env rental_doc]> (db_rental db))
       (db_invoice db).

(** A rental is active when its status is "active", as
    [list_active_rentals] selects it. *)
Definition is_active (rental_doc : document) : bool :=
  eq_str (fields rental_doc !! "status") "active".

(** A rental refers to a car by the string of the car's identifier. *)
Definition refers_to (rental_doc car_doc : document) : bool :=
  eq_str (fields rental_doc !! "car_id") (ObjectId_str (_id car_doc)).

(** The active rentals of a car. *)
Definition active_rentals_of (db : DB) (car_doc : document) : list document :=
  filter (λ r, Is_true (is_active r && refers_to r car_doc)) (db_rental db).

(** The states of the service: the empty database and whatever any
    sequence of requests makes of it, failed requests included. *)
Inductive reachable : DB → Prop :=
  | reachable_empty : reachable empty_db
  | reachable_request (env : Env) (m : http_method) (path : list string)
      (b : body) (db : DB) :
      reachable db → reachable (snd (app_request env m path b db)).

(** What the handlers maintain between requests. *)
Record consistent (db : DB) : Prop := mkConsistent {
  cars_distinct : NoDup (_id <$> db_car db);
  rentals_status : ∀ r, r ∈ db_rental db →
    fields r !! "status" = Some (VStr "active")
    ∨ fields r !! "status" = Some (VStr "returned");
  active_car : ∀ r, r ∈ db_rental db → is_active r = true →
    ∃ c, c ∈ db_car db
         ∧ fields r !! "car_id" = Some (VStr (ObjectId_str (_id c)))
         ∧ fields c !! "available" = Some (VBool false);
  active_unique : ∀ i j r1 r2,
    db_rental db !! i = Some r1 → db_rental db !! j = Some r2 →
    is_active r1 = true → is_active r2 = true →
    fields r1 !! "car_id" = fields r2 !! "car_id" → i = j
}.

(** ** A sample run

    One car is added, rented on 2024-01-01 and returned a day and a half
    later; the states in between serve as concrete inputs. *)

Definition sample_oid (b : byte) : ObjectId :=
  mkObjectId x00 x00 x00 x00 x00 x00 x00 x00 x00 x00 x00 b.

(** A clock that starts at [t] and advances a microsecond per reading. *)
Definition sample_clock (t : datetime) : nat → datetime :=
  λ k, t + Z.of_nat k.

Definition sample_env (t : datetime) (b : byte) : Env :=
  mkEnv (sample_clock t) (sample_oid b).

Definition sample_car_request : CreateCarRequest :=
  mkCreateCarRequest "Toyota" "Corolla" 2020 "ABC-123" 100%float.

Definition sample_start_request : StartRentalRequest :=
  mkStartRentalRequest (ObjectId_str (sample_oid x01)) "Ann".

Definition db_with_car : DB :=
  snd (app_request (sample_env (mk_datetime 2023 12 31 9 0 0 0) x01)
         POST ["api"; "cars"] (CarBody sample_car_request) empty_db).

Definition db_rented : DB :=
  snd (app_request (sample_env (mk_datetime 2024 1 1 0 0 0 0) x02)
         POST ["api"; "rentals"; "start"] (StartBody sample_start_request)
         db_with_car).

Definition sample_return_env : Env :=
  sample_env (mk_datetime 2024 1 2 12 0 0 0) x03.

Definition sample_return_result : (exn + jsondict * jsondict) * DB :=
  return_rental sample_return_env (ObjectId_str (sample_oid x02))
    ReturnRentalRequest_default db_rented.

Definition db_returned : DB :=
  snd (app_request sample_return_env POST
         ["api"; "rentals"; ObjectId_str (sample_oid x02); "return"]
         (ReturnBody ReturnRentalRequest_default) db_rented).

Definition sample_rental_json : jsondict :=
  match fst sample_return_result with
  | inr (r, _) => r
  | inl _ => ∅
  end.

Definition sample_invoice_json : jsondict :=
  match fst sample_return_result with
  | inr (_, i) => i
  | inl _ => ∅
  end.

(** Snapshots for [compute_invoice]: a car with a daily rate and a
    returned rental with its two instants. *)
Definition car_snapshot (rate : float) : document :=
  mkDocument (sample_oid x01)
    (<["plate_number" := VStr "ABC-123"]> (
     <["daily_rate" := VFloat rate]> ∅)).

Definition rental_snapshot (start_date end_date : datetime) : document :=
  mkDocument (sample_oid x02)
    (<["car_id" := VStr (ObjectId_str (sample_oid x01))]> (
     <["customer_name" := VStr "Ann"]> (
     <["start_date" := VDatetime start_date]> (
     <["end_date" := VDatetime end_date]> (
     <["status" := VStr "returned"]> ∅))))).

(** The first document of a collection, for the sample states. *)
Definition first_doc (c : collection) (db : DB) : document :=
  default (mkDocument (sample_oid x00) ∅) (head (db_get c db)).

(** A car document written before the [available] field existed, alone
    in the database. *)
Definition legacy_car : document :=
  mkDocument (sample_oid x01)
    (delete "available" (fields (first_doc car db_with_car))).

Definition db_legacy : DB := mkDB [legacy_car] [] [].

(** A field of the invoice that [compute_invoice] returned; [None] when it
    raised or the field is absent. *)
Definition invoice_field (k : string) (r : exn + pydict) : option value :=
  match r with
  | inr data => data !! k
  | inl _ => None
  end.

(** A field of the invoice in the response of a Return. *)
Definition returned_invoice_field (k : string)
    (r : (exn + jsondict * jsondict) * DB) : option json :=
  match fst r with
  | inr (_, invoice_json) => invoice_json !! k
  | inl _ => None
  end.

(** ** main.py: PyObjectId *)

(** [ObjectId.is_valid(v)] for a field value: a string is tried by the
    constructor, an ObjectId is valid, and every other value is falsy or
    makes the constructor raise [TypeError], which [is_valid] catches. *)
Definition ObjectId_is_valid_value (v : value) : bool :=
  match v with
  | VStr s => ObjectId_is_valid s
  | VObjectId _ => true
  | _ => false
  end.

(** [PyObjectId.validate(v)] *)
Definition PyObjectId_validate (v : value) : exn + ObjectId :=
  match v with
  | VObjectId o => inr o
  | _ =>
      if negb (ObjectId_is_valid_value v) then inl (Unhandled "ValueError")
      else ObjectId_of_value v
  end.

(** ** What one request writes *)

(** The four ways in which a request leaves the database: untouched, with
    one more car, with a car taken and one more rental, or with a rental
    returned, its car released and perhaps one more invoice. *)
Inductive written (db : DB) : DB → Prop :=
  | written_nothing : written db db
  | written_car (env : Env) (payload : CreateCarRequest) (data : pydict) :
      first_match (ByField "plate_number" (plate_number payload)) (db_car db)
        = None →
      CarSchema (make payload) (model payload) (year payload)
        (plate_number payload) (daily_rate payload) true = inr data →
      new_id env ∉ (_id <$> db_car db) →
      written db
        (mkDB (db_car db ++ [mkDocument (new_id env) (bson_value <$> data)])
              (db_rental db) (db_invoice db))
  | written_start (env : Env) (payload : StartRentalRequest) (oid : ObjectId)
      (i : nat) (c : document) :
      first_match (ById oid) (db_car db) = Some (i, c) →
      car_is_available c = true →
      new_id env ∉ (_id <$> db_rental db) →
      written db
        (mkDB (<[i := started_car env c]> (db_car db))
              (db_rental db ++ [started_rental env payload c])
              (db_invoice db))
  | written_return (env : Env) (tax : option float) (oid car_oid : ObjectId)
      (i j : nat) (r c : document) (invoices' : list document) :
      first_match (ById oid) (db_rental db) = Some (i, r) →
      eq_str (fields r !! "status") "returned" = false →
      rental_car_oid r = inr car_oid →
      first_match (ById car_oid) (db_car db) = Some (j, c) →
      (invoices' = db_invoice db
       ∨ ∃ data,
           compute_invoice c (returned_rental env r) tax (now env 3) = inr data
           ∧ (new_id env ∉ (_id <$> db_invoice db))
           ∧ invoices'
             = (db_invoice db
                ++ [mkDocument (new_id env) (bson_value <$> data)])%list) →
      written db
        (mkDB (<[j := returned_car env c]> (db_car db))
              (<[i := returned_rental env r]> (db_rental db))
              invoices').


(** The rented sample state with a rental document that has lost its
    customer name. *)
Definition db_nameless : DB :=
  mkDB (db_car db_rented)
       [mkDocument (sample_oid x02)
          (delete "customer_name" (fields (first_doc rental db_rented)))]
       [].

(** ** Further invariants of the reachable states *)

(** The plate numbers of the stored cars, in storage order. *)
Definition car_plates (db : DB) : list (option value) :=
  (λ c, fields c !! "plate_number") <$> db_car db.

(** Every car has a plate number, a string, and no two cars share one. *)
Definition plates_distinct (db : DB) : Prop :=
  NoDup (car_plates db)
  ∧ ∀ x, x ∈ car_plates db → ∃ p, x = Some (VStr p).

(** A car is marked available, or it is marked unavailable and an active
    rental names it. *)
Definition availability_exact (db : DB) : Prop :=
  ∀ c, c ∈ db_car db →
    fields c !! "available" = Some (VBool true)
    ∨ (fields c !! "available" = Some (VBool false)
       ∧ ∃ r, r ∈ db_rental db ∧ is_active r = true
              ∧ fields r !! "car_id" = Some (VStr (ObjectId_str (_id c)))).

(** The rentals that the stored invoices name, in storage order. *)
Definition invoiced_rentals (db : DB) : list (option value) :=
  (λ v, fields v !! "rental_id") <$> db_invoice db.

(** Rentals have distinct identifiers, every invoice names a stored
    rental that is returned, and no two invoices name the same rental. *)
Definition invoices_sound (db : DB) : Prop :=
  NoDup (_id <$> db_rental db)
  ∧ (∀ v, v ∈ db_invoice db →
       ∃ r, r ∈ db_rental db
            ∧ fields v !! "rental_id" = Some (VStr (ObjectId_str (_id r)))
            ∧ fields r !! "status" = Some (VStr "returned"))
  ∧ NoDup (invoiced_rentals db).

(** The rented sample state with a second car. *)
Definition db_two_cars : DB :=
  snd (app_request (sample_env (mk_datetime 2024 1 1 8 0 0 0) x05)
         POST ["api"; "cars"]
         (CarBody (mkCreateCarRequest "Honda" "Civic" 2019 "XYZ-789" 80%float))
         db_rented).

(** The fields that [compute_invoice] reads are present with their
    types, and invoices have distinct identifiers. *)
Definition records_shaped (db : DB) : Prop :=
  (∀ r, r ∈ db_rental db →
     (∃ name, fields r !! "customer_name" = Some (VStr name))
     ∧ ∃ ts, fields r !! "start_date" = Some (VDatetime ts))
  ∧ (∀ c, c ∈ db_car db → ∃ rate, fields c !! "daily_rate" = Some (VFloat rate))
  ∧ NoDup (_id <$> db_invoice db).

(** * Properties *)

(** ** ObjectId rendering and parsing *)

Lemma byte_of_hex_hexlify (b : byte) :
  byte_of_hex (byte_hex_hi b) (byte_hex_lo b) = Some b.
Proof. destruct b; vm_compute; reflexivity. Qed.

Lemma ObjectId_of_str_str (o : ObjectId) :
  ObjectId_of_str (ObjectId_str o) = Some o.
Proof.
  destruct o. unfold ObjectId_of_str, ObjectId_str, oid_bytes.
  cbn [hexlify String.length Nat.eqb bytes_fromhex
       oid0 oid1 oid2 oid3 oid4 oid5 oid6 oid7 oid8 oid9 oid10 oid11].
  by rewrite !byte_of_hex_hexlify.
Qed.

Lemma ObjectId_is_valid_str (o : ObjectId) :
  ObjectId_is_valid (ObjectId_str o) = true.
Proof.
  unfold ObjectId_is_valid. rewrite ObjectId_of_str_str.
  by destruct o.
Qed.

Lemma ObjectId_str_inj (o1 o2 : ObjectId) :
  ObjectId_str o1 = ObjectId_str o2 → o1 = o2.
Proof.
  intros H. apply (f_equal ObjectId_of_str) in H.
  rewrite !ObjectId_of_str_str in H. congruence.
Qed.

Lemma ObjectId_ctor_str (o : ObjectId) :
  ObjectId_ctor (ObjectId_str o) = inr o.
Proof. unfold ObjectId_ctor. by rewrite ObjectId_of_str_str. Qed.

Lemma ObjectId_ctor_of_str (s : string) (o : ObjectId) :
  ObjectId_of_str s = Some o → ObjectId_ctor s = inr o.
Proof. intros H. unfold ObjectId_ctor. by rewrite H. Qed.

Lemma ObjectId_is_valid_of_str (s : string) (o : ObjectId) :
  ObjectId_of_str s = Some o → ObjectId_is_valid s = true.
Proof.
  intros H. unfold ObjectId_is_valid. rewrite H. destruct s; [|done].
  by vm_compute in H.
Qed.

Lemma ObjectId_is_valid_inv (s : string) :
  ObjectId_is_valid s = true → ∃ o, ObjectId_of_str s = Some o.
Proof.
  unfold ObjectId_is_valid. destruct s; [done|].
  destruct (ObjectId_of_str _) as [o|]; [eauto|done].
Qed.

(** ** Running the monad *)

Lemma bind_run {A B} (m : M A) (f : A → M B) (db : DB) :
  (m ≫= f) db =
  match m db with
  | (inr a, db') => f a db'
  | (inl e, db') => (inl e, db')
  end.
Proof. reflexivity. Qed.

Lemma find_one_run (c : collection) (q : query) (db : DB) :
  find_one c q db = (inr (snd <$> first_match q (db_get c db)), db).
Proof. reflexivity. Qed.

Lemma lift_run {A} (r : exn + A) (db : DB) : lift r db = (r, db).
Proof. reflexivity. Qed.

(** ** Return of a rental that is already returned *)

(** C4: when the rental that the identifier designates has status
    "returned", Return raises HTTP 400 "Rental already returned" (an
    InvalidState) and leaves the whole database as it was: no invoice is
    inserted and no rental or car field changes. *)
Theorem return_rental_already_returned
    (env : Env) (rental_id : string) (payload : ReturnRentalRequest) (db : DB)
    (oid : ObjectId) (r : document) :
  ObjectId_of_str rental_id = Some oid →
  find_one rental (ById oid) db = (inr (Some r), db) →
  fields r !! "status" = Some (VStr "returned") →
  return_rental env rental_id payload db
    = (inl (HTTPException 400 "Rental already returned"), db)
  ∧ error_kind_of (HTTPException 400 "Rental already returned")
    = Some InvalidState.
Proof.
  intros Hoid Hfind Hst. split; [|done].
  unfold return_rental.
  rewrite (ObjectId_is_valid_of_str _ _ Hoid). cbn [negb].
  unfold ObjectId_ctor. rewrite Hoid.
  rewrite bind_run, lift_run, bind_run, Hfind.
  by rewrite Hst.
Qed.

Lemma return_rental_already_returned_witness :
  return_rental (sample_env (mk_datetime 2024 1 5 0 0 0 0) x04)
    (ObjectId_str (sample_oid x02)) ReturnRentalRequest_default db_returned
    = (inl (HTTPException 400 "Rental already returned"), db_returned)
  ∧ error_kind_of (HTTPException 400 "Rental already returned")
    = Some InvalidState.
Proof.
  apply (return_rental_already_returned _ _ _ _ (sample_oid x02)
           (first_doc rental db_returned)).
  - vm_compute. reflexivity.
  - vm_compute. reflexivity.
  - vm_compute. reflexivity.
Defined.

(** ** Refusals of Start and of car creation *)

Lemma first_match_elem (q : query) (l : list document) (i : nat) (d : document) :
  l !! i = Some d → matches q d = true → is_Some (first_match q l).
Proof.
  intros Hl Hm. unfold first_match.
  apply (list_find_elem_of _ l d).
  - by eapply list_elem_of_lookup_2.
  - by rewrite Hm.
Qed.

Lemma first_match_Some (q : query) (l : list document) (i : nat) (d : document) :
  first_match q l = Some (i, d) →
  l !! i = Some d ∧ matches q d = true
  ∧ ∀ j y, l !! j = Some y → (j < i)%nat → matches q y = false.
Proof.
  unfold first_match. intros (Hl & Hm & Hlt)%list_find_Some.
  split; [done|]. split; [by apply Is_true_true|].
  intros j y Hj Hji. specialize (Hlt j y Hj Hji).
  by destruct (matches q y); [destruct Hlt|].
Qed.






(** C8: creating a car whose plate number is that of a stored car raises
    HTTP 400 "Plate number already exists" (InvalidState), whatever the
    other fields of the request are, and inserts nothing: the database is
    unchanged. *)
Theorem add_car_duplicate_plate
    (env : Env) (payload : CreateCarRequest) (db : DB)
    (i : nat) (existing : document) :
  db_car db !! i = Some existing →
  fields existing !! "plate_number" = Some (VStr (plate_number payload)) →
  add_car env payload db
    = (inl (HTTPException 400 "Plate number already exists"), db)
  ∧ error_kind_of (HTTPException 400 "Plate number already exists")
    = Some InvalidState.
Proof.
  intros Hi Hplate. split; [|done].
  unfold add_car. rewrite bind_run, find_one_run.
  destruct (first_match_elem (ByField "plate_number" (plate_number payload))
              (db_car db) i existing Hi) as [[j d] Hj].
  { cbn. rewrite Hplate. cbn. apply String.eqb_refl. }
  cbn [db_get]. by rewrite Hj.
Qed.

Lemma add_car_duplicate_plate_witness :
  add_car (sample_env 0 x07)
    (mkCreateCarRequest "Honda" "Civic" 1999 "ABC-123" 55%float) db_rented
    = (inl (HTTPException 400 "Plate number already exists"), db_rented)
  ∧ error_kind_of (HTTPException 400 "Plate number already exists")
    = Some InvalidState.
Proof.
  apply (add_car_duplicate_plate _ _ _ 0%nat (first_doc car db_rented)).
  - vm_compute. reflexivity.
  - vm_compute. reflexivity.
Defined.

(** ** The driver on lists *)

Lemma first_match_ById_None (o : ObjectId) (l : list document) :
  first_match (ById o) l = None ↔ o ∉ (_id <$> l).
Proof.
  unfold first_match. rewrite list_find_None, Forall_forall. split.
  - intros H (d & -> & Hd)%list_elem_of_fmap. apply (H d Hd).
    cbn. by rewrite bool_decide_eq_true_2.
  - intros H d Hd Hm. apply H. apply list_elem_of_fmap. exists d.
    split; [|done]. cbn in Hm. by apply bool_decide_unpack in Hm.
Qed.

Lemma first_match_ById_id (o : ObjectId) (l : list document) (i : nat)
    (d : document) :
  first_match (ById o) l = Some (i, d) → _id d = o.
Proof.
  intros (_ & Hm & _)%first_match_Some. cbn in Hm.
  by apply bool_decide_eq_true_1 in Hm.
Qed.

Lemma first_match_app_new (o : ObjectId) (l : list document) (d : document) :
  _id d = o → first_match (ById o) l = None →
  first_match (ById o) (l ++ [d]) = Some (length l, d).
Proof.
  intros Hid Hnone. unfold first_match in *.
  rewrite (list_find_app_r _ _ _ Hnone). cbn.
  rewrite decide_True; [done|]. cbn. by rewrite bool_decide_eq_true_2.
Qed.

Lemma first_match_insert_same (q : query) (l : list document) (i : nat)
    (d d' : document) :
  first_match q l = Some (i, d) → matches q d' = true →
  first_match q (<[i := d']> l) = Some (i, d').
Proof.
  intros (Hl & Hm & Hlt)%first_match_Some Hm'. unfold first_match.
  apply list_find_insert_Some. right. left.
  split; [done|]. split; [done|]. split; [by eapply lookup_lt_Some|].
  split; [by rewrite Hm'|].
  intros j y Hj Hji. rewrite (Hlt j y Hj Hji). by intros [].
Qed.

Lemma find_one_Some_inv (c : collection) (q : query) (db : DB) (d : document) :
  find_one c q db = (inr (Some d), db) →
  ∃ i, first_match q (db_get c db) = Some (i, d).
Proof.
  rewrite find_one_run. intros [= H].
  destruct (first_match q (db_get c db)) as [[i d']|]; [|done].
  cbn in H. injection H as ->. by exists i.
Qed.

Lemma find_one_None_inv (c : collection) (q : query) (db : DB) :
  find_one c q db = (inr None, db) → first_match q (db_get c db) = None.
Proof.
  rewrite find_one_run. intros [= H].
  by destruct (first_match q (db_get c db)) as [[i d']|].
Qed.

(** ** Start, case by case *)

Lemma bson_value_rental_data (env : Env) (payload : StartRentalRequest)
    (o : ObjectId) :
  bson_value <$>
    (<["car_id" := VStr (ObjectId_str o)]> (
     <["customer_name" := VStr (customer_name payload)]> (
     <["start_date" := VDatetime (now env 0)]> (
     <["end_date" := VNone]> (
     <["status" := VStr "active"]> (∅ : pydict))))))
  = <["car_id" := VStr (ObjectId_str o)]> (
     <["customer_name" := VStr (customer_name payload)]> (
     <["start_date" := VDatetime (bson_datetime (now env 0))]> (
     <["end_date" := VNone]> (
     <["status" := VStr "active"]> ∅)))).
Proof. by rewrite !fmap_insert, fmap_empty. Qed.

Lemma bson_value_car_sets (b : bool) (t : datetime) :
  bson_value <$>
    (<["available" := VBool b]> (<["updated_at" := VDatetime t]> (∅ : pydict)))
  = <["available" := VBool b]> (
      <["updated_at" := VDatetime (bson_datetime t)]> ∅).
Proof. by rewrite !fmap_insert, fmap_empty. Qed.

(** Every run of Start is one of five: three refusals, the refusal of a
    duplicate identifier by the store, or success with both writes. *)
Lemma start_rental_cases (env : Env) (payload : StartRentalRequest) (db : DB) :
  (ObjectId_is_valid (car_id payload) = false
   ∧ start_rental env payload db
     = (inl (HTTPException 400 "Invalid car_id"), db))
  ∨ (∃ oid, ObjectId_of_str (car_id payload) = Some oid
      ∧ first_match (ById oid) (db_car db) = None
      ∧ start_rental env payload db
        = (inl (HTTPException 404 "Car not found"), db))
  ∨ (∃ oid i car_doc, ObjectId_of_str (car_id payload) = Some oid
      ∧ first_match (ById oid) (db_car db) = Some (i, car_doc)
      ∧ car_is_available car_doc = false
      ∧ start_rental env payload db
        = (inl (HTTPException 400 "Car is not available"), db))
  ∨ (∃ oid i car_doc, ObjectId_of_str (car_id payload) = Some oid
      ∧ first_match (ById oid) (db_car db) = Some (i, car_doc)
      ∧ car_is_available car_doc = true
      ∧ new_id env ∈ (_id <$> db_rental db)
      ∧ start_rental env payload db
        = (inl (Unhandled "DuplicateKeyError"), db))
  ∨ (∃ oid i car_doc, ObjectId_of_str (car_id payload) = Some oid
      ∧ first_match (ById oid) (db_car db) = Some (i, car_doc)
      ∧ car_is_available car_doc = true
      ∧ (new_id env ∉ (_id <$> db_rental db))
      ∧ start_rental env payload db
        = (inr (serialize_doc (started_rental env payload car_doc)),
           mkDB (<[i := started_car env car_doc]> (db_car db))
                (db_rental db ++ [started_rental env payload car_doc])
                (db_invoice db))).
Proof.
  remember (start_rental env payload db) as res eqn:E.
  unfold start_rental in E.
  destruct (ObjectId_is_valid (car_id payload)) eqn:Hvalid; [|by left].
  right. destruct (ObjectId_is_valid_inv _ Hvalid) as [oid Hoid].
  cbn [negb] in E. rewrite (ObjectId_ctor_of_str _ _ Hoid) in E.
  rewrite bind_run, lift_run, bind_run, find_one_run in E. cbn [db_get] in E.
  destruct (first_match (ById oid) (db_car db)) as [[i car_doc]|] eqn:Hcar;
    cbn [fmap option_fmap option_map snd] in E; [|left; eauto].
  right. fold (car_is_available car_doc) in E.
  destruct (car_is_available car_doc) eqn:Hav; cbn [negb] in E;
    [|left; eauto 10].
  right. unfold RentalSchema, create_document, insert_one in E.
  rewrite !bind_run, lift_run, !bind_run in E. cbn [db_get] in E.
  destruct (bool_decide (new_id env ∈ (_id <$> db_rental db))) eqn:Hdup.
  { left. apply bool_decide_eq_true_1 in Hdup. eauto 10. }
  right. apply bool_decide_eq_false_1 in Hdup.
  exists oid, i, car_doc. do 4 (split; [done|]).
  rewrite bson_value_rental_data in E.
  fold (started_rental env payload car_doc) in E.
  unfold mret, M_ret in E. rewrite bind_run in E. unfold update_one in E.
  cbn [db_get db_set db_car db_rental db_invoice] in E.
  pose proof (first_match_ById_id _ _ _ _ Hcar) as Hid.
  rewrite Hid, Hcar in E.
  rewrite bson_value_car_sets in E.
  fold (started_car env car_doc) in E.
  rewrite ObjectId_ctor_str, bind_run, lift_run, bind_run, find_one_run in E.
  cbn [db_get db_rental] in E.
  rewrite (first_match_app_new (new_id env) (db_rental db)
             (started_rental env payload car_doc)) in E;
    [exact E | done | by apply first_match_ById_None].
Qed.

(** ** Start on a car document without the [available] field *)

(** C10: when the stored car document has no [available] field, the
    availability check of Start passes ([car.get("available", True)] reads
    true): with an identifier that the rental collection does not hold
    yet, Start succeeds, stores one new rental with status "active" for
    that car, and sets the car's [available] to false. *)
Theorem start_rental_without_available_field
    (env : Env) (payload : StartRentalRequest) (db : DB)
    (oid : ObjectId) (car_doc : document) :
  ObjectId_of_str (car_id payload) = Some oid →
  find_one car (ById oid) db = (inr (Some car_doc), db) →
  fields car_doc !! "available" = None →
  find_one rental (ById (new_id env)) db = (inr None, db) →
  ∃ created db',
    start_rental env payload db = (inr created, db')
    ∧ created !! "status" = Some (JStr "active")
    ∧ created !! "car_id" = Some (JStr (ObjectId_str (_id car_doc)))
    ∧ db_rental db' = (db_rental db ++ [started_rental env payload car_doc])%list
    ∧ ∃ car_doc',
        find_one car (ById oid) db' = (inr (Some car_doc'), db')
        ∧ fields car_doc' !! "available" = Some (VBool false).
Proof.
  intros Hoid Hcar Hav Hfresh.
  apply find_one_Some_inv in Hcar as [i Hcar]. cbn [db_get] in Hcar.
  apply find_one_None_inv, first_match_ById_None in Hfresh.
  cbn [db_get] in Hfresh.
  assert (car_is_available car_doc = true) as Hopen.
  { unfold car_is_available. by rewrite Hav. }
  destruct (start_rental_cases env payload db)
    as [[Hbad _]|[(o & Ho & Hnone & _)|[(o & j & c & Ho & Hc & Hno & _)|
        [(o & j & c & Ho & Hc & _ & Hdup & _)|
         (o & j & c & Ho & Hc & _ & _ & Hrun)]]]].
  - by rewrite (ObjectId_is_valid_of_str _ _ Hoid) in Hbad.
  - congruence.
  - assert (c = car_doc) as -> by congruence. congruence.
  - done.
  - assert (o = oid) as -> by congruence.
    assert (j = i ∧ c = car_doc) as [-> ->] by (split; congruence).
    eexists _, _. split; [exact Hrun|].
    split; [reflexivity|]. split; [reflexivity|]. split; [reflexivity|].
    exists (started_car env car_doc).
    rewrite find_one_run. cbn [db_get db_car].
    rewrite (first_match_insert_same _ _ _ _ (started_car env car_doc) Hcar).
    + split; [reflexivity|]. by apply lookup_union_Some_l.
    + cbn. apply bool_decide_eq_true_2.
      by apply first_match_ById_id in Hcar.
Qed.

Lemma start_rental_without_available_field_witness :
  ∃ created db',
    start_rental (sample_env (mk_datetime 2024 1 1 0 0 0 0) x02)
      sample_start_request db_legacy = (inr created, db')
    ∧ created !! "status" = Some (JStr "active")
    ∧ created !! "car_id" = Some (JStr (ObjectId_str (_id legacy_car)))
    ∧ db_rental db'
      = (db_rental db_legacy
         ++ [started_rental (sample_env (mk_datetime 2024 1 1 0 0 0 0) x02)
               sample_start_request legacy_car])%list
    ∧ ∃ car_doc',
        find_one car (ById (sample_oid x01)) db' = (inr (Some car_doc'), db')
        ∧ fields car_doc' !! "available" = Some (VBool false).
Proof.
  apply (start_rental_without_available_field
           (sample_env (mk_datetime 2024 1 1 0 0 0 0) x02) sample_start_request
           db_legacy (sample_oid x01) legacy_car).
  - vm_compute. reflexivity.
  - vm_compute. reflexivity.
  - vm_compute. reflexivity.
  - vm_compute. reflexivity.
Defined.

(** ** Return, case by case *)

Lemma bson_value_return_sets (t0 t1 : datetime) :
  bson_value <$>
    (<["end_date" := VDatetime t0]> (
     <["status" := VStr "returned"]> (
     <["updated_at" := VDatetime t1]> (∅ : pydict))))
  = <["end_date" := VDatetime (bson_datetime t0)]> (
     <["status" := VStr "returned"]> (
     <["updated_at" := VDatetime (bson_datetime t1)]> ∅)).
Proof. by rewrite !fmap_insert, fmap_empty. Qed.

(** Every run of Return either refuses before any write, or makes both
    updates and then fails to produce or store the invoice, or succeeds. *)
Lemma return_rental_cases (env : Env) (rental_id : string)
    (payload : ReturnRentalRequest) (db : DB) :
  (∃ e, return_rental env rental_id payload db = (inl e, db))
  ∨ (∃ oid i rental_doc car_oid j car_doc,
      ObjectId_of_str rental_id = Some oid
      ∧ first_match (ById oid) (db_rental db) = Some (i, rental_doc)
      ∧ eq_str (fields rental_doc !! "status") "returned" = false
      ∧ rental_car_oid rental_doc = inr car_oid
      ∧ first_match (ById car_oid) (db_car db) = Some (j, car_doc)
      ∧ let db1 := db_after_updates env i rental_doc j car_doc db in
        let computed :=
          compute_invoice car_doc (returned_rental env rental_doc)
            (Some (float_or_zero (tax_rate payload))) (now env 3) in
        (∃ e, computed = inl e
              ∧ return_rental env rental_id payload db = (inl e, db1))
        ∨ (∃ data, computed = inr data
              ∧ new_id env ∈ (_id <$> db_invoice db)
              ∧ return_rental env rental_id payload db
                = (inl (Unhandled "DuplicateKeyError"), db1))
        ∨ (∃ data, computed = inr data
              ∧ (new_id env ∉ (_id <$> db_invoice db))
              ∧ let invoice_doc :=
                  mkDocument (new_id env) (bson_value <$> data) in
                return_rental env rental_id payload db
                = (inr (serialize_doc (returned_rental env rental_doc),
                        serialize_doc invoice_doc),
                   mkDB (db_car db1) (db_rental db1)
                        (db_invoice db ++ [invoice_doc])))).
Proof.
  remember (return_rental env rental_id payload db) as res eqn:E.
  unfold return_rental in E.
  destruct (ObjectId_is_valid rental_id) eqn:Hvalid; [|by left; eexists; exact E].
  destruct (ObjectId_is_valid_inv _ Hvalid) as [oid Hoid].
  cbn [negb] in E. rewrite (ObjectId_ctor_of_str _ _ Hoid) in E.
  rewrite bind_run, lift_run, bind_run, find_one_run in E. cbn [db_get] in E.
  destruct (first_match (ById oid) (db_rental db)) as [[i rental_doc]|] eqn:Hr;
    cbn [fmap option_fmap option_map snd] in E; [|by left; eexists; exact E].
  destruct (eq_str (fields rental_doc !! "status") "returned") eqn:Hst;
    [by left; eexists; exact E|].
  fold (rental_car_oid rental_doc) in E.
  rewrite bind_run, lift_run in E.
  destruct (rental_car_oid rental_doc) as [e|car_oid] eqn:Hco; [by left; eexists; exact E|].
  rewrite bind_run, find_one_run in E. cbn [db_get] in E.
  destruct (first_match (ById car_oid) (db_car db)) as [[j car_doc]|] eqn:Hc;
    cbn [fmap option_fmap option_map snd] in E; [|by left; eexists; exact E].
  right. exists oid, i, rental_doc, car_oid, j, car_doc.
  do 5 (split; [done|]). cbn zeta.
  pose proof (first_match_ById_id _ _ _ _ Hr) as Hrid.
  pose proof (first_match_ById_id _ _ _ _ Hc) as Hcid.
  rewrite bind_run in E. unfold update_one at 1 in E.
  cbn [db_get db_set db_car db_rental db_invoice] in E.
  rewrite Hrid, Hr, bson_value_return_sets in E.
  rewrite bind_run in E. unfold update_one at 1 in E.
  cbn [db_get db_set db_car db_rental db_invoice] in E.
  rewrite Hcid, Hc, bson_value_car_sets in E.
  rewrite bind_run, find_one_run in E.
  cbn [db_get db_set db_car db_rental db_invoice] in E.
  change (mkDocument (_id rental_doc) _) with (returned_rental env rental_doc) in E.
  change (mkDocument (_id car_doc) _) with (returned_car env car_doc) in E.
  rewrite (first_match_insert_same _ _ _ _ (returned_rental env rental_doc) Hr)
    in E; [|cbn; by apply bool_decide_eq_true_2].
  cbn [fmap option_fmap option_map snd] in E.
  fold (db_after_updates env i rental_doc j car_doc db) in E.
  rewrite bind_run, lift_run in E.
  destruct (compute_invoice car_doc (returned_rental env rental_doc)
              (Some (float_or_zero (tax_rate payload))) (now env 3))
    as [e|data] eqn:Hinv; [by left; exists e|].
  right. unfold create_document, insert_one in E.
  rewrite !bind_run in E. cbn [db_get db_after_updates db_invoice] in E.
  destruct (bool_decide (new_id env ∈ (_id <$> db_invoice db))) eqn:Hdup.
  { left. apply bool_decide_eq_true_1 in Hdup. by exists data. }
  right. apply bool_decide_eq_false_1 in Hdup.
  exists data. do 2 (split; [done|]). cbn zeta.
  unfold mret, M_ret in E.
  rewrite ObjectId_ctor_str, bind_run, lift_run, bind_run, find_one_run in E.
  cbn [db_get db_set db_car db_rental db_invoice] in E.
  rewrite (first_match_app_new (new_id env) (db_invoice db)
             (mkDocument (new_id env) (bson_value <$> data))) in E;
    [exact E | done | by apply first_match_ById_None].
Qed.

(** ** The invoice that compute_invoice returns *)

(** The shape of every successful result of [compute_invoice]. *)
Lemma compute_invoice_inr (car_doc rental_doc : document)
    (tax : option float) (utcnow : datetime) (data : pydict) :
  compute_invoice car_doc rental_doc tax utcnow = inr data →
  ∃ ts te rate fdays name,
    fields rental_doc !! "start_date" = Some (VDatetime ts)
    ∧ py_or (fields rental_doc !! "end_date") (VDatetime utcnow) = VDatetime te
    ∧ py_float (default (VFloat 0) (fields car_doc !! "daily_rate")) = inr rate
    ∧ float_of_int (billed_days (datetime_sub te ts)) = Some fdays
    ∧ fields rental_doc !! "customer_name" = Some (VStr name)
    ∧ InvoiceSchema (ObjectId_str (_id rental_doc)) (ObjectId_str (_id car_doc))
        (VStr name) ts te (billed_days (datetime_sub te ts)) rate
        (round2 (fdays * rate))
        (float_or_zero tax)
        (round2 (round2 (fdays * rate) * float_or_zero tax))
        (round2 (round2 (fdays * rate)
                 + round2 (round2 (fdays * rate) * float_or_zero tax)))
      = inr data.
Proof.
  unfold compute_invoice. intros H.
  destruct (py_or (fields rental_doc !! "end_date") (VDatetime utcnow))
    as [| | | | |te|] eqn:Hend;
    destruct (fields rental_doc !! "start_date") as [[| | | | |ts|]|] eqn:Hstart;
    try discriminate H.
  cbn [duration_of] in H.
  destruct (py_float _) as [|rate] eqn:Hrate; [discriminate H|].
  destruct (float_of_int _) as [fdays|] eqn:Hdays; [|discriminate H].
  destruct (fields rental_doc !! "customer_name") as [name|] eqn:Hname;
    [|discriminate H].
  destruct name as [| | | |name| |]; try discriminate H.
  by exists ts, te, rate, fdays, name.
Qed.

(** On snapshots as the handlers store them, [compute_invoice] returns:
    a rental with its two instants and a customer name, and a car with a
    float rate. *)
Lemma compute_invoice_succeeds (car_doc rental_doc : document)
    (tax : option float) (utcnow ts te : datetime) (rate fdays : float)
    (name : string) :
  fields rental_doc !! "start_date" = Some (VDatetime ts) →
  fields rental_doc !! "end_date" = Some (VDatetime te) →
  fields rental_doc !! "customer_name" = Some (VStr name) →
  fields car_doc !! "daily_rate" = Some (VFloat rate) →
  float_of_int (billed_days (datetime_sub te ts)) = Some fdays →
  ∃ data, compute_invoice car_doc rental_doc tax utcnow = inr data.
Proof.
  intros Hs He Hn Hr Hd. unfold compute_invoice.
  rewrite Hs, He, Hn, Hr. cbn [py_or truthy duration_of default py_float].
  rewrite Hd. cbn [InvoiceSchema]. eauto.
Qed.

Lemma bson_datetime_idemp (t : datetime) :
  bson_datetime (bson_datetime t) = bson_datetime t.
Proof. unfold bson_datetime. by rewrite Z.div_mul. Qed.

(** With a stored [end_date], the current-time fallback of
    [compute_invoice] is not taken: the result does not depend on the
    clock and carries the stored [end_date]. *)
Lemma compute_invoice_stored_end_date (car_doc rental_doc : document)
    (tax : option float) (utcnow : datetime) (te : datetime) (data : pydict) :
  fields rental_doc !! "end_date" = Some (VDatetime te) →
  compute_invoice car_doc rental_doc tax utcnow = inr data →
  data !! "end_date" = Some (VDatetime te)
  ∧ ∀ t, compute_invoice car_doc rental_doc tax t = inr data.
Proof.
  intros Hend H. split.
  - apply compute_invoice_inr in H
      as (ts & te' & rate & fdays & name & _ & Hor & _ & _ & _ & Hdata).
    rewrite Hend in Hor. cbn in Hor. injection Hor as <-.
    cbn in Hdata. by injection Hdata as <-.
  - intros t. rewrite <- H. unfold compute_invoice. by rewrite Hend.
Qed.

(** ** The end date of the invoice of a Return *)

(** C5: in every successful Return the rental is re-read after its
    [end_date] has been written, so [compute_invoice] finds a stored
    [end_date] and its fallback to the current time is not taken: the
    invoice is the same whatever the clock reads at that point, and the
    stored invoice, the returned invoice and the returned rental all
    carry the [end_date] that the rental document now holds. *)
Theorem return_rental_invoice_end_date
    (env : Env) (rental_id : string) (payload : ReturnRentalRequest)
    (db db' : DB) (rental_json invoice_json : jsondict) :
  return_rental env rental_id payload db
    = (inr (rental_json, invoice_json), db') →
  ∃ oid rental_doc' car_doc invoice_doc data end_date,
    ObjectId_of_str rental_id = Some oid
    ∧ find_one rental (ById oid) db' = (inr (Some rental_doc'), db')
    ∧ fields rental_doc' !! "end_date" = Some (VDatetime end_date)
    ∧ end_date = bson_datetime (now env 0)
    ∧ (∀ t, py_or (fields rental_doc' !! "end_date") (VDatetime t)
            = VDatetime end_date)
    ∧ (∀ t, compute_invoice car_doc rental_doc'
              (Some (float_or_zero (tax_rate payload))) t = inr data)
    ∧ db_invoice db' = (db_invoice db ++ [invoice_doc])%list
    ∧ fields invoice_doc = bson_value <$> data
    ∧ fields invoice_doc !! "end_date" = Some (VDatetime end_date)
    ∧ invoice_json = serialize_doc invoice_doc
    ∧ invoice_json !! "end_date" = Some (JIsoUTC end_date)
    ∧ rental_json !! "end_date" = Some (JIsoUTC end_date).
Proof.
  intros Hrun.
  destruct (return_rental_cases env rental_id payload db)
    as [[e He]|(oid & i & r & co & j & c & Hoid & Hr & _ & _ & _ & Hcases)];
    [congruence|].
  cbn zeta in Hcases.
  destruct Hcases as [(e & _ & He)|[(d & _ & _ & He)|(data & Hinv & _ & He)]];
    [congruence..|].
  rewrite Hrun in He. injection He as -> -> ->.
  assert (fields (returned_rental env r) !! "end_date"
          = Some (VDatetime (bson_datetime (now env 0)))) as Hend.
  { by apply lookup_union_Some_l. }
  destruct (compute_invoice_stored_end_date _ _ _ _ _ _ Hend Hinv)
    as [Hdata Hany].
  exists oid, (returned_rental env r), c,
    (mkDocument (new_id env) (bson_value <$> data)), data,
    (bson_datetime (now env 0)).
  split; [done|]. split.
  { rewrite find_one_run. cbn [db_get db_rental db_after_updates].
    rewrite (first_match_insert_same _ _ _ _ (returned_rental env r) Hr);
      [done|].
    cbn. apply bool_decide_eq_true_2. by apply first_match_ById_id in Hr. }
  split; [done|]. split; [done|].
  split; [intros t; by rewrite Hend|].
  split; [done|]. split; [done|]. split; [done|].
  assert ((bson_value <$> data) !! "end_date"
          = Some (VDatetime (bson_datetime (now env 0)))) as Hstored.
  { rewrite lookup_fmap, Hdata. cbn. by rewrite bson_datetime_idemp. }
  split; [done|]. split; [done|]. split.
  - unfold serialize_doc, to_dict. rewrite lookup_fmap.
    rewrite lookup_insert_ne by done. cbn [fields]. by rewrite Hstored.
  - unfold serialize_doc, to_dict. rewrite lookup_fmap.
    rewrite lookup_insert_ne by done. by rewrite Hend.
Qed.

Lemma return_rental_invoice_end_date_witness :
  return_rental sample_return_env (ObjectId_str (sample_oid x02))
    ReturnRentalRequest_default db_rented
    = (inr (sample_rental_json, sample_invoice_json), db_returned)
  ∧ sample_invoice_json !! "end_date"
    = Some (JIsoUTC (mk_datetime 2024 1 2 12 0 0 0))
  ∧ sample_rental_json !! "end_date"
    = Some (JIsoUTC (mk_datetime 2024 1 2 12 0 0 0)).
Proof.
  assert (return_rental sample_return_env (ObjectId_str (sample_oid x02))
            ReturnRentalRequest_default db_rented
          = (inr (sample_rental_json, sample_invoice_json), db_returned))
    as Hrun by (vm_compute; reflexivity).
  split; [exact Hrun|].
  destruct (return_rental_invoice_end_date _ _ _ _ _ _ _ Hrun)
    as (oid & r & c & i & data & e & _ & _ & _ & He & _ & _ & _ & _ & _ & _
        & Hinv & Hrent).
  rewrite He in Hinv, Hrent. split; [exact Hinv | exact Hrent].
Defined.

(** ** Listing and fetching by id *)

Lemma first_match_NoDup (l : list document) (i : nat) (d : document) :
  NoDup (_id <$> l) → l !! i = Some d →
  first_match (ById (_id d)) l = Some (i, d).
Proof.
  intros Hnd Hi. unfold first_match. apply list_find_Some.
  split; [done|]. split; [cbn; by rewrite bool_decide_eq_true_2|].
  intros j y Hj Hji Hm. cbn in Hm. apply bool_decide_unpack in Hm.
  assert (j = i); [|lia].
  apply (NoDup_lookup (_id <$> l) j i (_id d)); [done| |].
  - by rewrite list_lookup_fmap, Hj, <- Hm.
  - by rewrite list_lookup_fmap, Hi.
Qed.

Lemma route_list_invoices : route GET ["api"; "invoices"] = Some EpListInvoices.
Proof. reflexivity. Qed.

Lemma route_get_invoice (s : string) :
  route GET ["api"; "invoices"; s] = Some (EpGetInvoice s).
Proof. reflexivity. Qed.

(** Every GET route runs one of six endpoints. *)
Lemma route_GET_inv (path : list string) (ep : endpoint) :
  route GET path = Some ep →
  ep = EpReadRoot ∨ ep = EpTestDatabase ∨ ep = EpListCars
  ∨ ep = EpListInvoices ∨ ep = EpListActiveRentals
  ∨ ∃ invoice_id, ep = EpGetInvoice invoice_id.
Proof.
  destruct path as [|a [|c [|d [|x ?]]]]; cbn -[bool_decide];
    repeat case_bool_decide; intros [= <-]; eauto 10.
Qed.

(** What a GET request can answer: the root message, the diagnostic
    object, an array, or one stored invoice. *)
Lemma app_request_GET_inr (env : Env) (path : list string) (b : body)
    (db : DB) (resp : response) :
  fst (app_request env GET path b db) = inr resp →
  resp = RObject {["message" := JStr "Car Rental Backend is running"]}
  ∨ resp = RDiagnostic
  ∨ (∃ l, resp = RArray l)
  ∨ ∃ d, d ∈ db_invoice db ∧ resp = RObject (serialize_doc d).
Proof.
  unfold app_request.
  destruct (route GET path) as [ep|] eqn:Hroute;
    [|case_bool_decide; discriminate].
  apply route_GET_inv in Hroute
    as [->|[->|[->|[->|[->|[invoice_id ->]]]]]]; cbn [run_endpoint].
  - intros [= <-]. by left.
  - intros [= <-]. right. by left.
  - intros [= <-]. right. right. left. eauto.
  - intros [= <-]. right. right. left. eauto.
  - intros [= <-]. right. right. left. eauto.
  - unfold respond, get_invoice.
    destruct (ObjectId_is_valid invoice_id); [|discriminate].
    cbn [negb]. rewrite !bind_run, lift_run.
    destruct (ObjectId_ctor invoice_id) as [|oid]; [discriminate|].
    rewrite bind_run, find_one_run. cbn [db_get].
    destruct (first_match (ById oid) (db_invoice db)) as [[i d]|] eqn:Hd;
      [|discriminate].
    intros [= <-]. right. right. right. exists d. split; [|done].
    apply first_match_Some in Hd as [Hd _]. by eapply list_elem_of_lookup_2.
Qed.

(** C9, as stated, fails: the car and the active rental that the list
    endpoints return in the sample state are returned by no GET request
    at all; [main.py] declares no get-by-id route for cars or rentals. *)
Lemma listed_car_and_rental_not_fetchable :
  ∃ car_json rental_json,
    fst (list_cars db_rented) = inr [car_json]
    ∧ fst (list_active_rentals db_rented) = inr [rental_json]
    ∧ ∀ env path b resp,
        fst (app_request env GET path b db_rented) = inr resp →
        resp ≠ RObject car_json ∧ resp ≠ RObject rental_json.
Proof.
  exists (serialize_doc (first_doc car db_rented)),
         (serialize_doc (first_doc rental db_rented)).
  split; [vm_compute; reflexivity|]. split; [vm_compute; reflexivity|].
  assert (serialize_doc (first_doc car db_rented) !! "message" = None)
    as Hcar by (vm_compute; reflexivity).
  assert (serialize_doc (first_doc rental db_rented) !! "message" = None)
    as Hrental by (vm_compute; reflexivity).
  assert (db_invoice db_rented = []) as Hnone by (vm_compute; reflexivity).
  generalize dependent (serialize_doc (first_doc car db_rented)).
  generalize dependent (serialize_doc (first_doc rental db_rented)).
  generalize dependent db_rented.
  intros db Hnone rental_json Hrental car_json Hcar env path b resp Hresp.
  apply app_request_GET_inr in Hresp as [->|[->|[[l ->]|(d & Hd & _)]]].
  - split; intros [= H]; apply (f_equal (lookup "message")) in H;
      rewrite lookup_singleton_eq in H; congruence.
  - split; discriminate.
  - split; discriminate.
  - rewrite Hnone in Hd. by apply elem_of_nil in Hd.
Qed.

(** C9, amended: every record that GET /api/invoices returns is returned,
    with identical field values, by GET /api/invoices/{id} on the record's
    own ["_id"], in any database whose invoice identifiers are distinct
    (the store's unique index on [_id]).  Cars and rentals have no
    get-by-id endpoint. *)
Theorem listed_invoice_fetchable_by_id
    (env : Env) (db : DB) (b : body) (listed : list jsondict) (r : jsondict) :
  NoDup (_id <$> db_invoice db) →
  app_request env GET ["api"; "invoices"] b db = (inr (RArray listed), db) →
  r ∈ listed →
  ∃ s, r !! "_id" = Some (JStr s)
       ∧ app_request env GET ["api"; "invoices"; s] b db = (inr (RObject r), db)
       ∧ get_invoice s db = (inr r, db).
Proof.
  intros Hnd Hlist Hr. unfold app_request in *.
  rewrite route_list_invoices in Hlist. cbn in Hlist.
  injection Hlist as <-.
  apply list_elem_of_fmap in Hr as (d & -> & Hd).
  apply list_elem_of_lookup in Hd as [i Hi].
  exists (ObjectId_str (_id d)).
  split.
  { unfold serialize_doc, to_dict. by rewrite lookup_fmap, lookup_insert_eq. }
  assert (get_invoice (ObjectId_str (_id d)) db = (inr (serialize_doc d), db))
    as Hget.
  { unfold get_invoice. rewrite ObjectId_is_valid_str. cbn [negb].
    rewrite ObjectId_ctor_str, bind_run, lift_run, bind_run, find_one_run.
    cbn [db_get]. by rewrite (first_match_NoDup _ _ _ Hnd Hi). }
  split; [|done].
  rewrite route_get_invoice. cbn [run_endpoint].
  unfold respond. by rewrite bind_run, Hget.
Qed.

Lemma listed_invoice_fetchable_by_id_witness :
  ∃ s, sample_invoice_json !! "_id" = Some (JStr s)
       ∧ app_request sample_return_env GET ["api"; "invoices"; s] NoBody
           db_returned = (inr (RObject sample_invoice_json), db_returned)
       ∧ get_invoice s db_returned = (inr sample_invoice_json, db_returned).
Proof.
  apply (listed_invoice_fetchable_by_id sample_return_env db_returned NoBody
           [sample_invoice_json] sample_invoice_json).
  - vm_compute. apply NoDup_cons. split; [|apply NoDup_nil_2].
    apply not_elem_of_nil.
  - vm_compute. reflexivity.
  - apply list_elem_of_here.
Defined.

(** ** Billed days *)

(** The number of days on every invoice is
    [max(1, duration.days + (1 if duration.seconds > 0 else 0))] of the
    timedelta between the effective end and the start. *)
Lemma compute_invoice_days (car_doc rental_doc : document)
    (tax : option float) (utcnow : datetime) (data : pydict) :
  compute_invoice car_doc rental_doc tax utcnow = inr data →
  ∃ ts te,
    fields rental_doc !! "start_date" = Some (VDatetime ts)
    ∧ py_or (fields rental_doc !! "end_date") (VDatetime utcnow) = VDatetime te
    ∧ data !! "days"
      = Some (VInt (Z.max 1 (td_days (datetime_sub te ts)
                             + (if td_seconds (datetime_sub te ts) >? 0
                                then 1 else 0)))).
Proof.
  intros (ts & te & rate & fdays & name & Hs & He & _ & _ & _ & Hdata)
    %compute_invoice_inr.
  exists ts, te. split; [done|]. split; [done|].
  cbn in Hdata. by injection Hdata as <-.
Qed.

(** X7: a duration of whole seconds is billed by the day, rounded up, and
    at least one day. *)
Lemma billed_days_whole_seconds (s e : datetime) :
  (e - s) mod us_per_second = 0 →
  billed_days (datetime_sub e s) = Z.max 1 (- ((s - e) / us_per_day)).
Proof.
  unfold billed_days, datetime_sub, us_per_day, seconds_per_day, us_per_second.
  cbn [td_days td_seconds]. intros Hsec.
  set (u := e - s) in *. replace (s - e) with (- u) by (unfold u; lia).
  pose proof (Z.div_mod u 86400000000 ltac:(lia)) as Hu.
  pose proof (Z.mod_pos_bound u 86400000000 ltac:(lia)) as Hr.
  set (q := u / (86400 * 1000000)) in *.
  set (r := u mod (86400 * 1000000)) in *.
  change (86400 * 1000000) with 86400000000 in *.
  assert (r mod 1000000 = 0) as Hrs.
  { assert (r = u - 86400 * q * 1000000) as -> by lia.
    unfold Z.sub. rewrite <- Z.mul_opp_l, Z.mod_add by lia. exact Hsec. }
  pose proof (Z.div_mod r 1000000 ltac:(lia)) as Hrd. rewrite Hrs in Hrd.
  destruct (Z.eq_dec r 0) as [Hz|Hnz].
  - rewrite Hz. cbn. rewrite Z.add_0_r.
    replace (- u) with ((- q) * 86400000000) by lia.
    rewrite Z.div_mul by lia. f_equal. lia.
  - assert (0 < r / 1000000) as Hpos by lia.
    apply Z.gtb_lt in Hpos. rewrite Hpos.
    assert (- u / 86400000000 = - q - 1) as ->; [|f_equal; lia].
    symmetry. apply (Z.div_unique_pos _ _ _ (86400000000 - r)); lia.
Qed.

(** The two instances that the spec names: one second at rate 100 is one
    day and 100.00; exactly two days at rate 50 are two days and 100.00;
    and a rental of no duration is one day. *)
Lemma compute_invoice_spec_examples :
  let one_second :=
    compute_invoice (car_snapshot 100)
      (rental_snapshot (mk_datetime 2024 1 1 0 0 0 0)
         (mk_datetime 2024 1 1 0 0 1 0)) (Some 0%float) 0 in
  let two_days :=
    compute_invoice (car_snapshot 50)
      (rental_snapshot (mk_datetime 2024 1 1 0 0 0 0)
         (mk_datetime 2024 1 3 0 0 0 0)) None 0 in
  invoice_field "days" one_second = Some (VInt 1)
  ∧ invoice_field "subtotal" one_second = Some (VFloat 100)
  ∧ invoice_field "total" one_second = Some (VFloat 100)
  ∧ invoice_field "days" two_days = Some (VInt 2)
  ∧ invoice_field "subtotal" two_days = Some (VFloat 100)
  ∧ billed_days (datetime_sub 0 0) = 1.
Proof. cbv zeta. repeat split; vm_compute; reflexivity. Qed.

(** C1, at the input where the code departs from it: a rental of one day
    and half a second has [duration.seconds = 0], so the half second is
    not rounded up: [compute_invoice] bills 1 day, and so does a Return
    through the API whose clock reads half a second past the full day. *)
Theorem compute_invoice_subsecond_leftover_not_billed :
  let start_date := mk_datetime 2024 1 1 0 0 0 0 in
  let end_date := mk_datetime 2024 1 2 0 0 0 500000 in
  let computed :=
    compute_invoice (car_snapshot 100) (rental_snapshot start_date end_date)
      None 0 in
  let returned :=
    return_rental (sample_env end_date x03) (ObjectId_str (sample_oid x02))
      ReturnRentalRequest_default db_rented in
  us_per_day < end_date - start_date
  ∧ datetime_sub end_date start_date = mkTimedelta 1 0 500000
  ∧ invoice_field "days" computed = Some (VInt 1)
  ∧ invoice_field "subtotal" computed = Some (VFloat 100)
  ∧ returned_invoice_field "start_date" returned = Some (JIsoUTC start_date)
  ∧ returned_invoice_field "end_date" returned = Some (JIsoUTC end_date)
  ∧ returned_invoice_field "days" returned = Some (JInt 1).
Proof. cbv zeta. repeat split; vm_compute; reflexivity. Qed.

(** ** Stage-wise rounding *)

Lemma float_or_zero_idemp (x : option float) :
  float_or_zero (Some (float_or_zero x)) = float_or_zero x.
Proof.
  destruct x as [f|]; [|reflexivity]. cbn.
  destruct (PrimFloat.eqb f 0) eqn:E; [reflexivity|]. by rewrite E.
Qed.



(** Rounding at each stage is not rounding once at the end: one day at
    rate 0.125 with tax rate 0.5 totals 0.18, where the unrounded sum
    0.1875 would round to 0.19. *)
Lemma stagewise_rounding_differs_from_single_rounding :
  let computed :=
    compute_invoice (car_snapshot 0.125)
      (rental_snapshot (mk_datetime 2024 1 1 0 0 0 0)
         (mk_datetime 2024 1 2 0 0 0 0)) (Some 0.5%float) 0 in
  let total := round2 (round2 0.125 + round2 (round2 0.125 * 0.5)) in
  invoice_field "subtotal" computed = Some (VFloat (round2 0.125))
  ∧ invoice_field "total" computed = Some (VFloat total)
  ∧ PrimFloat.ltb total (round2 (0.125 + 0.125 * 0.5)) = true.
Proof. cbv zeta. repeat split; vm_compute; reflexivity. Qed.

(** ** Car creation, case by case *)

Lemma add_car_cases (env : Env) (payload : CreateCarRequest) (db : DB) :
  (∃ e, add_car env payload db = (inl e, db))
  ∨ (∃ data,
      CarSchema (make payload) (model payload) (year payload)
        (plate_number payload) (daily_rate payload) true = inr data
      ∧ (new_id env ∉ (_id <$> db_car db))
      ∧ let car_doc := mkDocument (new_id env) (bson_value <$> data) in
        add_car env payload db
        = (inr (serialize_doc car_doc),
           mkDB (db_car db ++ [car_doc]) (db_rental db) (db_invoice db))).
Proof.
  remember (add_car env payload db) as res eqn:E. unfold add_car in E.
  rewrite bind_run, find_one_run in E. cbn [db_get] in E.
  destruct (first_match _ (db_car db)) as [[i d]|];
    cbn [fmap option_fmap option_map snd] in E;
    [by left; eexists; exact E|].
  rewrite bind_run, lift_run in E.
  destruct (CarSchema _ _ _ _ _ _) as [e|data] eqn:Hdata;
    [by left; eexists; exact E|].
  unfold create_document, insert_one in E. rewrite !bind_run in E.
  cbn [db_get] in E.
  destruct (bool_decide (new_id env ∈ (_id <$> db_car db))) eqn:Hdup;
    [by left; eexists; exact E|].
  right. apply bool_decide_eq_false_1 in Hdup.
  exists data. do 2 (split; [done|]). cbn zeta.
  unfold mret, M_ret in E.
  rewrite ObjectId_ctor_str, bind_run, lift_run, bind_run, find_one_run in E.
  cbn [db_get db_set db_car db_rental db_invoice] in E.
  rewrite (first_match_app_new (new_id env) (db_car db)
             (mkDocument (new_id env) (bson_value <$> data))) in E;
    [exact E | done | by apply first_match_ById_None].
Qed.

(** ** The rental lifecycle invariant *)

Lemma eq_str_true (v : option value) (s : string) :
  eq_str v s = true ↔ v = Some (VStr s).
Proof.
  unfold eq_str. destruct v as [[| | | |s'| |]|]; try (split; [done|congruence]).
  split.
  - intros H%String.eqb_eq. by subst.
  - intros [= ->]. apply String.eqb_refl.
Qed.

Lemma is_active_status (r : document) :
  is_active r = true ↔ fields r !! "status" = Some (VStr "active").
Proof. apply eq_str_true. Qed.

Lemma NoDup_fmap_elem_eq {A B} (f : A → B) (l : list A) (x y : A) :
  NoDup (f <$> l) → x ∈ l → y ∈ l → f x = f y → x = y.
Proof.
  intros Hnd [i Hi]%list_elem_of_lookup [j Hj]%list_elem_of_lookup Hf.
  assert (i = j) as ->; [|congruence].
  apply (NoDup_lookup (f <$> l) i j (f x)); [done| |].
  - by rewrite list_lookup_fmap, Hi.
  - by rewrite list_lookup_fmap, Hj, Hf.
Qed.

Lemma fmap_id_insert_same (l : list document) (i : nat) (d d' : document) :
  l !! i = Some d → _id d' = _id d → _id <$> <[i := d']> l = _id <$> l.
Proof.
  intros Hi Hid. rewrite list_fmap_insert, Hid.
  apply list_insert_id. by rewrite list_lookup_fmap, Hi.
Qed.

Lemma filter_length_le_1 {A} (P : A → Prop) `{∀ x, Decision (P x)}
    (l : list A) :
  (∀ i j x y, l !! i = Some x → l !! j = Some y → P x → P y → i = j) →
  (length (filter P l) ≤ 1)%nat.
Proof.
  induction l as [|x l IH]; intros Huniq; [cbn; lia|].
  rewrite filter_cons. destruct (decide (P x)) as [Hx|Hx].
  - assert (filter P l = []) as ->; [|cbn; lia].
    destruct (filter P l) as [|y t] eqn:Hf; [done|].
    assert (y ∈ filter P l) as Hy by (rewrite Hf; apply list_elem_of_here).
    apply list_elem_of_filter in Hy as [Hy [j Hj]%list_elem_of_lookup].
    by specialize (Huniq 0%nat (S j) x y eq_refl Hj Hx Hy).
  - apply IH. intros i j a b Hi Hj Ha Hb.
    by specialize (Huniq (S i) (S j) a b Hi Hj Ha Hb) as [= ->].
Qed.

Lemma consistent_empty : consistent empty_db.
Proof.
  split; cbn.
  - apply NoDup_nil_2.
  - intros r Hr. by apply elem_of_nil in Hr.
  - intros r Hr. by apply elem_of_nil in Hr.
  - intros i j r1 r2 Hi. by rewrite lookup_nil in Hi.
Qed.

(** Consistency looks at the cars and the rentals only. *)
Lemma consistent_invoices (db : DB) (invoices : list document) :
  consistent db → consistent (mkDB (db_car db) (db_rental db) invoices).
Proof. intros [H1 H2 H3 H4]. by split. Qed.

Lemma consistent_add_car (db : DB) (d : document) :
  consistent db → _id d ∉ (_id <$> db_car db) →
  consistent (mkDB (db_car db ++ [d]) (db_rental db) (db_invoice db)).
Proof.
  intros [Hnd Hst Hcar Huniq] Hfresh. split; cbn [db_car db_rental]; [|done| |done].
  - rewrite fmap_app. apply NoDup_app. split; [done|]. split.
    + intros x Hx Hin%list_elem_of_singleton. by subst x.
    + apply NoDup_singleton.
  - intros r Hr Hact. destruct (Hcar r Hr Hact) as (c & Hc & Hrest).
    exists c. split; [|done]. apply elem_of_app. by left.
Qed.

(** A car that passes the availability check has no active rental. *)
Lemma available_car_no_active_rental (db : DB) (c r : document) :
  consistent db → c ∈ db_car db → car_is_available c = true →
  r ∈ db_rental db → is_active r = true →
  fields r !! "car_id" ≠ Some (VStr (ObjectId_str (_id c))).
Proof.
  intros [Hnd _ Hcar _] Hc Hav Hr Hact Href.
  destruct (Hcar r Hr Hact) as (c0 & Hc0 & Hid & Hbusy).
  assert (_id c = _id c0) as Hsame by (apply ObjectId_str_inj; congruence).
  assert (c = c0) as -> by by eapply NoDup_fmap_elem_eq.
  unfold car_is_available in Hav. by rewrite Hbusy in Hav.
Qed.

Lemma consistent_start (db : DB) (env : Env) (payload : StartRentalRequest)
    (oid : ObjectId) (i : nat) (c : document) :
  consistent db →
  first_match (ById oid) (db_car db) = Some (i, c) →
  car_is_available c = true →
  consistent (mkDB (<[i := started_car env c]> (db_car db))
                   (db_rental db ++ [started_rental env payload c])
                   (db_invoice db)).
Proof.
  intros Hcons Hfound Hav.
  pose proof (first_match_Some _ _ _ _ Hfound) as (Hi & _ & _).
  assert (c ∈ db_car db) as Hc by by eapply list_elem_of_lookup_2.
  pose proof (available_car_no_active_rental db c) as Hfree.
  destruct Hcons as [Hnd Hst Hcar Huniq]. 
  assert (consistent db) as Hcons by by split.
  split; cbn [db_car db_rental].
  - by rewrite (fmap_id_insert_same _ _ c).
  - intros r [Hr|Hr%list_elem_of_singleton]%elem_of_app; [by apply Hst|].
    subst r. by left.
  - intros r [Hr|Hr%list_elem_of_singleton]%elem_of_app Hact;
      [|subst r].
    + destruct (Hcar r Hr Hact) as (c0 & [k Hk]%list_elem_of_lookup & Hid & Hbusy).
      exists c0. split; [|done].
      apply list_elem_of_lookup. exists k.
      rewrite list_lookup_insert_ne; [done|].
      intros <-. assert (c0 = c) as -> by congruence.
      by apply (Hfree r Hcons Hc Hav Hr Hact).
    + exists (started_car env c). split; [|split].
      * apply list_elem_of_lookup. exists i.
        apply list_lookup_insert_eq. by eapply lookup_lt_Some.
      * reflexivity.
      * by apply lookup_union_Some_l.
  - intros a b r1 r2 Ha Hb Hact1 Hact2 Heq.
    apply lookup_app_Some in Ha as [Ha|[Hla Ha]];
      apply lookup_app_Some in Hb as [Hb|[Hlb Hb]].
    + by eapply Huniq.
    + apply list_lookup_singleton_Some in Hb as [_ <-].
      exfalso. eapply (Hfree r1 Hcons Hc Hav); [by eapply list_elem_of_lookup_2|done|].
      by rewrite Heq.
    + apply list_lookup_singleton_Some in Ha as [_ <-].
      exfalso. eapply (Hfree r2 Hcons Hc Hav); [by eapply list_elem_of_lookup_2|done|].
      by rewrite <- Heq.
    + apply list_lookup_singleton_Some in Ha as [Ha _].
      apply list_lookup_singleton_Some in Hb as [Hb _]. lia.
Qed.

Lemma consistent_return (db : DB) (env : Env) (oid car_oid : ObjectId)
    (i j : nat) (r c : document) :
  consistent db →
  first_match (ById oid) (db_rental db) = Some (i, r) →
  eq_str (fields r !! "status") "returned" = false →
  rental_car_oid r = inr car_oid →
  first_match (ById car_oid) (db_car db) = Some (j, c) →
  consistent (db_after_updates env i r j c db).
Proof.
  intros Hcons Hr Hnot Hoid Hc.
  pose proof (first_match_Some _ _ _ _ Hr) as (Hi & _ & _).
  pose proof (first_match_Some _ _ _ _ Hc) as (Hj & _ & _).
  pose proof (first_match_ById_id _ _ _ _ Hc) as Hcid.
  assert (r ∈ db_rental db) as Hrin by by eapply list_elem_of_lookup_2.
  assert (c ∈ db_car db) as Hcin by by eapply list_elem_of_lookup_2.
  destruct Hcons as [Hnd Hst Hcar Huniq].
  assert (is_active r = true) as Hact.
  { apply is_active_status. destruct (Hst r Hrin) as [H|H]; [done|].
    rewrite H in Hnot. by vm_compute in Hnot. }
  assert (fields r !! "car_id" = Some (VStr (ObjectId_str (_id c)))) as Href.
  { destruct (Hcar r Hrin Hact) as (c1 & Hc1 & Hid & _).
    unfold rental_car_oid in Hoid. rewrite Hid in Hoid. cbn [ObjectId_of_value] in Hoid.
    rewrite ObjectId_ctor_str in Hoid. injection Hoid as Hoid.
    assert (c1 = c) as -> by (eapply NoDup_fmap_elem_eq; [done..|congruence]).
    done. }
  assert (fields (returned_rental env r) !! "status" = Some (VStr "returned"))
    as Hret by by apply lookup_union_Some_l.
  assert (is_active (returned_rental env r) = false) as Hdone.
  { unfold is_active. by rewrite Hret. }
  split; cbn [db_after_updates db_car db_rental].
  - by rewrite (fmap_id_insert_same _ _ c).
  - intros x [k Hk]%list_elem_of_lookup.
    apply list_lookup_insert_Some in Hk as [(_ & <- & _)|[_ Hk]].
    + by right.
    + apply Hst. by eapply list_elem_of_lookup_2.
  - intros x [k Hk]%list_elem_of_lookup Hx.
    apply list_lookup_insert_Some in Hk as [(_ & <- & _)|[Hki Hk]];
      [congruence|].
    destruct (Hcar x (list_elem_of_lookup_2 _ _ _ Hk) Hx)
      as (c0 & [m Hm]%list_elem_of_lookup & Hid & Hbusy).
    exists c0. split; [|done]. apply list_elem_of_lookup. exists m.
    rewrite list_lookup_insert_ne; [done|].
    intros <-. assert (c0 = c) as -> by congruence.
    apply Hki. eapply (Huniq i k r x); [done..|congruence].
  - intros a b r1 r2 Ha Hb Hact1 Hact2 Heq.
    apply list_lookup_insert_Some in Ha as [(_ & <- & _)|[_ Ha]];
      [congruence|].
    apply list_lookup_insert_Some in Hb as [(_ & <- & _)|[_ Hb]];
      [congruence|].
    by eapply Huniq.
Qed.

Lemma respond_db {A} (f : A → response) (m : M A) (db : DB) :
  snd (respond f m db) = snd (m db).
Proof. unfold respond. rewrite bind_run. by destruct (m db) as [[e|a] db']. Qed.

Lemma get_invoice_db (invoice_id : string) (db : DB) :
  snd (get_invoice invoice_id db) = db.
Proof.
  unfold get_invoice. destruct (ObjectId_is_valid invoice_id); [|done].
  cbn [negb]. rewrite bind_run, lift_run.
  destruct (ObjectId_ctor invoice_id); [done|].
  rewrite bind_run, find_one_run. by destruct (snd <$> _).
Qed.

(** Every request keeps the database consistent. *)
Lemma app_request_consistent (env : Env) (m : http_method) (path : list string)
    (b : body) (db : DB) :
  consistent db → consistent (snd (app_request env m path b db)).
Proof.
  intros Hcons. unfold app_request.
  destruct (route m path) as [ep|]; [|by case_bool_decide].
  destruct ep, b; cbn [run_endpoint]; rewrite ?respond_db;
    rewrite ?get_invoice_db; try assumption.
  - destruct (add_car_cases env p db) as [[e ->]|(data & _ & Hfresh & ->)];
      [done|].
    cbn [snd]. by apply (consistent_add_car db (mkDocument (new_id env) _)).
  - destruct (start_rental_cases env p db)
      as [[_ ->]|[(o & _ & _ & ->)|[(o & i & c & _ & _ & _ & ->)|
          [(o & i & c & _ & _ & _ & _ & ->)|
           (o & i & c & _ & Hc & Hav & _ & ->)]]]]; try done.
    cbn [snd]. by eapply consistent_start.
  - destruct (return_rental_cases env rental_id p db)
      as [[e ->]|(oid & i & r & co & j & c & _ & Hr & Hnot & Hco & Hc & Hcases)];
      [done|].
    cbn zeta in Hcases.
    pose proof (consistent_return db env oid co i j r c Hcons Hr Hnot Hco Hc)
      as Hafter.
    destruct Hcases as [(e & _ & ->)|[(d & _ & _ & ->)|(d & _ & _ & ->)]];
      try done.
    cbn [snd]. by apply consistent_invoices.
Qed.

Lemma reachable_consistent (db : DB) : reachable db → consistent db.
Proof.
  induction 1 as [|env m path b db _ IH]; [apply consistent_empty|].
  by apply app_request_consistent.
Qed.

(** C3: in every state that any sequence of requests reaches from the
    empty database, a car has at most one active rental, and a car with
    an active rental has [available = false], so that Start on it is
    refused with HTTP 400 "Car is not available" (InvalidState) and leaves
    the database unchanged. *)
Theorem reachable_one_active_rental_per_car (db : DB) (c : document) :
  reachable db → c ∈ db_car db →
  (length (active_rentals_of db c) ≤ 1)%nat
  ∧ (active_rentals_of db c ≠ [] →
     fields c !! "available" = Some (VBool false)
     ∧ ∀ env payload,
         ObjectId_of_str (car_id payload) = Some (_id c) →
         start_rental env payload db
           = (inl (HTTPException 400 "Car is not available"), db)
         ∧ error_kind_of (HTTPException 400 "Car is not available")
           = Some InvalidState).
Proof.
  intros Hcons%reachable_consistent Hc.
  pose proof Hcons as [Hnd Hst Hcar Huniq].
  assert (∀ r, Is_true (is_active r && refers_to r c) →
            is_active r = true
            ∧ fields r !! "car_id" = Some (VStr (ObjectId_str (_id c))))
    as Hsel.
  { intros r [Ha Hr]%andb_prop_elim. split; [by apply Is_true_true|].
    by apply eq_str_true, Is_true_true. }
  split.
  - apply filter_length_le_1. intros i j x y Hi Hj [Hx Hxc]%Hsel [Hy Hyc]%Hsel.
    eapply Huniq; [done..|congruence].
  - intros Hsome.
    destruct (active_rentals_of db c) as [|r t] eqn:Hf; [done|].
    assert (r ∈ active_rentals_of db c) as Hr
      by (rewrite Hf; apply list_elem_of_here).
    apply list_elem_of_filter in Hr as [[Hact Href]%Hsel Hr].
    destruct (Hcar r Hr Hact) as (c0 & Hc0 & Hid & Hbusy).
    assert (_id c0 = _id c) as Hsame by (apply ObjectId_str_inj; congruence).
    assert (c0 = c) as -> by by eapply NoDup_fmap_elem_eq.
    split; [done|]. intros env payload Hoid. split; [|done].
    apply list_elem_of_lookup in Hc as [k Hk].
    pose proof (first_match_NoDup _ _ _ Hnd Hk) as Hfound.
    assert (car_is_available c = false) as Hno.
    { unfold car_is_available. by rewrite Hbusy. }
    destruct (start_rental_cases env payload db)
      as [[Hbad _]|[(o & Ho & Hnone & _)|[(o & i & d & Ho & Hd & _ & Hrun)|
          [(o & i & d & Ho & Hd & Hav & _)|(o & i & d & Ho & Hd & Hav & _)]]]].
    + by rewrite (ObjectId_is_valid_of_str _ _ Hoid) in Hbad.
    + congruence.
    + done.
    + assert (d = c) as -> by congruence. congruence.
    + assert (d = c) as -> by congruence. congruence.
Qed.

Lemma reachable_one_active_rental_per_car_witness :
  (length (active_rentals_of db_rented (first_doc car db_rented)) ≤ 1)%nat
  ∧ (active_rentals_of db_rented (first_doc car db_rented) ≠ [] →
     fields (first_doc car db_rented) !! "available" = Some (VBool false)
     ∧ ∀ env payload,
         ObjectId_of_str (car_id payload) = Some (_id (first_doc car db_rented)) →
         start_rental env payload db_rented
           = (inl (HTTPException 400 "Car is not available"), db_rented)
         ∧ error_kind_of (HTTPException 400 "Car is not available")
           = Some InvalidState).
Proof.
  apply (reachable_one_active_rental_per_car db_rented
           (first_doc car db_rented)).
  - unfold db_rented, db_with_car.
    apply reachable_request, reachable_request, reachable_empty.
  - apply list_elem_of_lookup. exists 0%nat. vm_compute. reflexivity.
Defined.

(** In the sample state the rented car does have an active rental. *)
Lemma sample_car_has_active_rental :
  length (active_rentals_of db_rented (first_doc car db_rented)) = 1%nat
  ∧ length (active_rentals_of db_returned (first_doc car db_returned)) = 0%nat
  ∧ fields (first_doc car db_returned) !! "available" = Some (VBool true).
Proof. repeat split; vm_compute; reflexivity. Qed.

(** ** What one request writes *)

Lemma add_car_written (env : Env) (payload : CreateCarRequest) (db : DB) :
  written db (snd (add_car env payload db)).
Proof.
  remember (add_car env payload db) as res eqn:E. unfold add_car in E.
  rewrite bind_run, find_one_run in E. cbn [db_get] in E.
  destruct (first_match _ (db_car db)) as [[i d]|] eqn:Hplate;
    cbn [fmap option_fmap option_map snd] in E;
    [subst res; apply written_nothing|].
  rewrite bind_run, lift_run in E.
  destruct (CarSchema _ _ _ _ _ _) as [e|data] eqn:Hdata;
    [subst res; apply written_nothing|].
  unfold create_document, insert_one in E. rewrite !bind_run in E.
  cbn [db_get] in E.
  destruct (bool_decide (new_id env ∈ (_id <$> db_car db))) eqn:Hdup;
    [subst res; apply written_nothing|].
  apply bool_decide_eq_false_1 in Hdup.
  unfold mret, M_ret in E.
  rewrite ObjectId_ctor_str, bind_run, lift_run, bind_run, find_one_run in E.
  cbn [db_get db_set db_car db_rental db_invoice] in E.
  rewrite (first_match_app_new (new_id env) (db_car db)
             (mkDocument (new_id env) (bson_value <$> data))) in E;
    [|done|by apply first_match_ById_None].
  subst res. cbn [snd]. by eapply written_car.
Qed.

(** Every request writes in one of the four ways. *)
Lemma app_request_written (env : Env) (m : http_method) (path : list string)
    (b : body) (db : DB) :
  written db (snd (app_request env m path b db)).
Proof.
  unfold app_request.
  destruct (route m path) as [ep|]; [|case_bool_decide; apply written_nothing].
  destruct ep, b; cbn [run_endpoint]; rewrite ?respond_db;
    rewrite ?get_invoice_db; try apply written_nothing.
  - apply add_car_written.
  - destruct (start_rental_cases env p db)
      as [[_ ->]|[(o & _ & _ & ->)|[(o & i & c & _ & _ & _ & ->)|
          [(o & i & c & _ & _ & _ & _ & ->)|
           (o & i & c & _ & Hc & Hav & Hfresh & ->)]]]];
      try apply written_nothing.
    cbn [snd]. by eapply written_start.
  - destruct (return_rental_cases env rental_id p db)
      as [[e ->]|(oid & i & r & co & j & c & _ & Hr & Hnot & Hco & Hc & Hcases)];
      [apply written_nothing|].
    cbn zeta in Hcases.
    destruct Hcases as [(e & _ & ->)|[(d & _ & _ & ->)|(d & Hd & Hfresh & ->)]];
      cbn [snd]; unfold db_after_updates; cbn [db_car db_rental];
      eapply (written_return db env (Some (float_or_zero (tax_rate p))));
      eauto.
Qed.

Lemma reachable_written_ind (P : DB → Prop) :
  P empty_db → (∀ db db', reachable db → P db → written db db' → P db') →
  ∀ db, reachable db → P db.
Proof.
  intros Hempty Hstep db. induction 1 as [|env m path b db Hreach IH]; [done|].
  eapply Hstep; [done..|apply app_request_written].
Qed.

(** ** Reads never write *)

(** X1: no GET request changes the database, whatever its path and body
    and whether it is answered or refused. *)
Theorem get_request_never_writes (env : Env) (path : list string) (b : body)
    (db : DB) :
  snd (app_request env GET path b db) = db.
Proof.
  unfold app_request.
  destruct (route GET path) as [ep|] eqn:Hroute; [|by case_bool_decide].
  apply route_GET_inv in Hroute
    as [->|[->|[->|[->|[->|[invoice_id ->]]]]]]; cbn [run_endpoint];
    rewrite ?respond_db; try reflexivity.
  apply get_invoice_db.
Qed.

(** ** The store only grows *)

(** X2: a request leaves the stored invoices exactly as they are or
    appends one invoice: no invoice is ever changed or removed. *)
Theorem request_keeps_invoices (env : Env) (m : http_method)
    (path : list string) (b : body) (db : DB) :
  db_invoice (snd (app_request env m path b db)) = db_invoice db
  ∨ ∃ inv, db_invoice (snd (app_request env m path b db))
           = (db_invoice db ++ [inv])%list.
Proof.
  destruct (app_request_written env m path b db)
    as [| | |? ? ? ? ? ? ? ? ? _ _ _ _ [->|(data & _ & _ & ->)]];
    cbn [db_invoice]; eauto.
Qed.

(** X3: no request removes a car or a rental or changes its identifier:
    the identifiers of each collection, in storage order, stay a prefix
    of what the request leaves, and at most one is added. *)
Theorem request_keeps_cars_and_rentals (env : Env) (m : http_method)
    (path : list string) (b : body) (db : DB) :
  let db' := snd (app_request env m path b db) in
  ((_id <$> db_car db') = (_id <$> db_car db)
   ∨ ∃ o, (_id <$> db_car db') = ((_id <$> db_car db) ++ [o])%list)
  ∧ ((_id <$> db_rental db') = (_id <$> db_rental db)
     ∨ ∃ o, (_id <$> db_rental db') = ((_id <$> db_rental db) ++ [o])%list).
Proof.
  cbn zeta.
  destruct (app_request_written env m path b db)
    as [|env' p data _ _ _|env' p oid i c Hc _ _
        |env' tax oid co i j r c inv' Hr _ _ Hc _];
    cbn [db_car db_rental].
  - by split; left.
  - split; [right|by left]. rewrite fmap_app. eauto.
  - apply first_match_Some in Hc as (Hc & _ & _). split.
    + left. by apply (fmap_id_insert_same _ _ c).
    + right. rewrite fmap_app. eauto.
  - apply first_match_Some in Hc as (Hc & _ & _).
    apply first_match_Some in Hr as (Hr & _ & _). split; left.
    + by apply (fmap_id_insert_same _ _ c).
    + by apply (fmap_id_insert_same _ _ r).
Qed.

(** ** PyObjectId.validate *)

(** X4: [PyObjectId.validate] undoes the rendering of an identifier: on
    the ["_id"] string of a serialized document it returns the document's
    ObjectId, as it does on the ObjectId itself; and when it refuses a
    value, the value is not a valid identifier and the exception is
    [ValueError]. *)
Theorem PyObjectId_validate_round_trip (d : document) (v : value) :
  (∃ s, serialize_doc d !! "_id" = Some (JStr s)
        ∧ PyObjectId_validate (VStr s) = inr (_id d))
  ∧ PyObjectId_validate (VObjectId (_id d)) = inr (_id d)
  ∧ match PyObjectId_validate v with
    | inr _ => ObjectId_is_valid_value v = true
    | inl e => e = Unhandled "ValueError" ∧ ObjectId_is_valid_value v = false
    end.
Proof.
  split; [|split; [done|]].
  - exists (ObjectId_str (_id d)). split.
    + unfold serialize_doc, to_dict. by rewrite lookup_fmap, lookup_insert_eq.
    + unfold PyObjectId_validate. cbn [ObjectId_is_valid_value].
      rewrite ObjectId_is_valid_str. cbn [negb ObjectId_of_value].
      apply ObjectId_ctor_str.
  - unfold PyObjectId_validate. destruct v as [| | | |s| |]; try done.
    cbn [ObjectId_is_valid_value ObjectId_of_value].
    destruct (ObjectId_is_valid s) eqn:Hv; [|done]. cbn [negb].
    apply ObjectId_is_valid_inv in Hv as [o Ho].
    by rewrite (ObjectId_ctor_of_str _ _ Ho).
Qed.

(** ** Refusals of get_invoice *)



(** ** Bounds of the billed days *)

(** The ceiling of [u / us_per_day], by the remainder. *)
Lemma ceil_days (u : Z) :
  - ((- u) / us_per_day)
  = u / us_per_day + (if u mod us_per_day =? 0 then 0 else 1).
Proof.
  unfold us_per_day, seconds_per_day, us_per_second.
  change (86400 * 1000000) with 86400000000.
  pose proof (Z.div_mod u 86400000000 ltac:(lia)) as Hu.
  pose proof (Z.mod_pos_bound u 86400000000 ltac:(lia)) as Hr.
  destruct (Z.eqb_spec (u mod 86400000000) 0) as [Hz|Hnz].
  - replace (- u) with ((- (u / 86400000000)) * 86400000000) by lia.
    rewrite Z.div_mul by lia. lia.
  - assert (- u / 86400000000 = - (u / 86400000000) - 1) as ->; [|lia].
    symmetry.
    apply (Z.div_unique_pos _ _ _ (86400000000 - u mod 86400000000)); lia.
Qed.

(** X6: the billed days are at least 1, at least the whole days of the
    duration, and never more than the duration rounded up to whole days:
    a rental is never billed for a day it did not begin. *)
Theorem billed_days_bounds (s e : datetime) :
  1 ≤ billed_days (datetime_sub e s)
  ∧ (e - s) / us_per_day ≤ billed_days (datetime_sub e s)
  ∧ billed_days (datetime_sub e s) ≤ Z.max 1 (- ((s - e) / us_per_day))
  ∧ (e ≤ s → billed_days (datetime_sub e s) = 1).
Proof.
  replace (s - e) with (- (e - s)) by lia. rewrite ceil_days.
  unfold billed_days, datetime_sub. cbn [td_days td_seconds].
  set (u := e - s).
  assert (0 < us_per_day) as Hd by reflexivity.
  assert (0 < us_per_second) as Hs by reflexivity.
  pose proof (Z.mod_pos_bound u us_per_day Hd) as Hr.
  pose proof (Z.div_mod u us_per_day ltac:(lia)) as Hu.
  assert (0 <= (u mod us_per_day) / us_per_second) as Hsec
    by (apply Z.div_pos; lia).
  assert (u mod us_per_day = 0 → (u mod us_per_day) / us_per_second = 0)
    as Hzero by (intros ->; reflexivity).
  destruct (Z.eqb_spec (u mod us_per_day) 0) as [Hz|Hnz];
    destruct (Z.gtb_spec ((u mod us_per_day) / us_per_second) 0) as [Hp|Hp];
    (repeat split; [lia..|]); intros Hle;
    assert (u / us_per_day ≤ 0) by (apply Z.div_le_upper_bound; lia);
    lia.
Qed.

Lemma billed_days_whole_seconds_witness :
  billed_days (datetime_sub (mk_datetime 2024 1 2 0 0 1 0)
                 (mk_datetime 2024 1 1 0 0 0 0))
  = Z.max 1 (- ((mk_datetime 2024 1 1 0 0 0 0 - mk_datetime 2024 1 2 0 0 1 0)
                / us_per_day)).
Proof.
  apply (billed_days_whole_seconds (mk_datetime 2024 1 1 0 0 0 0)
           (mk_datetime 2024 1 2 0 0 1 0)).
  vm_compute. reflexivity.
Defined.

(** ** An invoice for a rental that has no end date *)



(** ** Return: refusals, failures and effects *)

Lemma rental_car_oid_inl (r : document) (e : exn) :
  rental_car_oid r = inl e → ∃ name, e = Unhandled name.
Proof.
  unfold rental_car_oid, ObjectId_of_value, ObjectId_ctor.
  repeat case_match; intros [= <-]; eauto.
Qed.

Lemma compute_invoice_inl (car_doc rental_doc : document)
    (tax : option float) (utcnow : datetime) (e : exn) :
  compute_invoice car_doc rental_doc tax utcnow = inl e →
  ∃ name, e = Unhandled name.
Proof.
  unfold compute_invoice, duration_of, py_float, InvoiceSchema.
  repeat case_match; intros [= <-]; simplify_eq; eauto.
Qed.

(** Every run of Return, with what it answers: five refusals before any
    write, and after the two updates a failure of the invoice, a
    duplicate identifier, or success. *)
Lemma return_rental_outcomes (env : Env) (rental_id : string)
    (payload : ReturnRentalRequest) (db : DB) :
  let res := return_rental env rental_id payload db in
  (ObjectId_is_valid rental_id = false
   ∧ res = (inl (HTTPException 400 "Invalid rental_id"), db))
  ∨ (∃ oid, ObjectId_of_str rental_id = Some oid
      ∧ first_match (ById oid) (db_rental db) = None
      ∧ res = (inl (HTTPException 404 "Rental not found"), db))
  ∨ (∃ oid i r, ObjectId_of_str rental_id = Some oid
      ∧ first_match (ById oid) (db_rental db) = Some (i, r)
      ∧ eq_str (fields r !! "status") "returned" = true
      ∧ res = (inl (HTTPException 400 "Rental already returned"), db))
  ∨ (∃ oid i r name, ObjectId_of_str rental_id = Some oid
      ∧ first_match (ById oid) (db_rental db) = Some (i, r)
      ∧ eq_str (fields r !! "status") "returned" = false
      ∧ rental_car_oid r = inl (Unhandled name)
      ∧ res = (inl (Unhandled name), db))
  ∨ (∃ oid i r car_oid, ObjectId_of_str rental_id = Some oid
      ∧ first_match (ById oid) (db_rental db) = Some (i, r)
      ∧ eq_str (fields r !! "status") "returned" = false
      ∧ rental_car_oid r = inr car_oid
      ∧ first_match (ById car_oid) (db_car db) = None
      ∧ res = (inl (HTTPException 404 "Car for rental not found"), db))
  ∨ (∃ oid i r car_oid j c, ObjectId_of_str rental_id = Some oid
      ∧ first_match (ById oid) (db_rental db) = Some (i, r)
      ∧ eq_str (fields r !! "status") "returned" = false
      ∧ rental_car_oid r = inr car_oid
      ∧ first_match (ById car_oid) (db_car db) = Some (j, c)
      ∧ let db1 := db_after_updates env i r j c db in
        let computed :=
          compute_invoice c (returned_rental env r)
            (Some (float_or_zero (tax_rate payload))) (now env 3) in
        (∃ name, computed = inl (Unhandled name)
                 ∧ res = (inl (Unhandled name), db1))
        ∨ (∃ data, computed = inr data
             ∧ new_id env ∈ (_id <$> db_invoice db)
             ∧ res = (inl (Unhandled "DuplicateKeyError"), db1))
        ∨ (∃ data, computed = inr data
             ∧ (new_id env ∉ (_id <$> db_invoice db))
             ∧ let invoice_doc :=
                 mkDocument (new_id env) (bson_value <$> data) in
               res = (inr (serialize_doc (returned_rental env r),
                           serialize_doc invoice_doc),
                      mkDB (db_car db1) (db_rental db1)
                           (db_invoice db ++ [invoice_doc])))).
Proof.
  cbn zeta.
  remember (return_rental env rental_id payload db) as res eqn:E.
  unfold return_rental in E.
  destruct (ObjectId_is_valid rental_id) eqn:Hvalid; [|by left].
  right. destruct (ObjectId_is_valid_inv _ Hvalid) as [oid Hoid].
  cbn [negb] in E. rewrite (ObjectId_ctor_of_str _ _ Hoid) in E.
  rewrite bind_run, lift_run, bind_run, find_one_run in E. cbn [db_get] in E.
  destruct (first_match (ById oid) (db_rental db)) as [[i r]|] eqn:Hr;
    cbn [fmap option_fmap option_map snd] in E; [|by left; exists oid].
  right.
  destruct (eq_str (fields r !! "status") "returned") eqn:Hst;
    [by left; exists oid, i, r|].
  right. fold (rental_car_oid r) in E.
  rewrite bind_run, lift_run in E.
  destruct (rental_car_oid r) as [e|car_oid] eqn:Hco.
  { left. destruct (rental_car_oid_inl _ _ Hco) as [name ->].
    by exists oid, i, r, name. }
  right. rewrite bind_run, find_one_run in E. cbn [db_get] in E.
  destruct (first_match (ById car_oid) (db_car db)) as [[j c]|] eqn:Hc;
    cbn [fmap option_fmap option_map snd] in E;
    [|by left; exists oid, i, r, car_oid].
  right. exists oid, i, r, car_oid, j, c.
  do 5 (split; [done|]).
  pose proof (first_match_ById_id _ _ _ _ Hr) as Hrid.
  pose proof (first_match_ById_id _ _ _ _ Hc) as Hcid.
  rewrite bind_run in E. unfold update_one at 1 in E.
  cbn [db_get db_set db_car db_rental db_invoice] in E.
  rewrite Hrid, Hr, bson_value_return_sets in E.
  rewrite bind_run in E. unfold update_one at 1 in E.
  cbn [db_get db_set db_car db_rental db_invoice] in E.
  rewrite Hcid, Hc, bson_value_car_sets in E.
  rewrite bind_run, find_one_run in E.
  cbn [db_get db_set db_car db_rental db_invoice] in E.
  change (mkDocument (_id r) _) with (returned_rental env r) in E.
  change (mkDocument (_id c) _) with (returned_car env c) in E.
  rewrite (first_match_insert_same _ _ _ _ (returned_rental env r) Hr)
    in E; [|cbn; by apply bool_decide_eq_true_2].
  cbn [fmap option_fmap option_map snd] in E.
  fold (db_after_updates env i r j c db) in E.
  rewrite bind_run, lift_run in E.
  destruct (compute_invoice c (returned_rental env r)
              (Some (float_or_zero (tax_rate payload))) (now env 3))
    as [e|data] eqn:Hinv.
  { left. destruct (compute_invoice_inl _ _ _ _ _ Hinv) as [name ->].
    by exists name. }
  right. unfold create_document, insert_one in E.
  rewrite !bind_run in E. cbn [db_get db_after_updates db_invoice] in E.
  destruct (bool_decide (new_id env ∈ (_id <$> db_invoice db))) eqn:Hdup.
  { left. apply bool_decide_eq_true_1 in Hdup. by exists data. }
  right. apply bool_decide_eq_false_1 in Hdup.
  exists data. do 2 (split; [done|]).
  unfold mret, M_ret in E.
  rewrite ObjectId_ctor_str, bind_run, lift_run, bind_run, find_one_run in E.
  cbn [db_get db_set db_car db_rental db_invoice] in E.
  rewrite (first_match_app_new (new_id env) (db_invoice db)
             (mkDocument (new_id env) (bson_value <$> data))) in E;
    [exact E | done | by apply first_match_ById_None].
Qed.

(** A returned rental is refused, whatever else the request says. *)
Lemma return_rental_again (env : Env) (rental_id : string)
    (payload : ReturnRentalRequest) (db : DB) (oid : ObjectId) (i : nat)
    (r : document) :
  ObjectId_of_str rental_id = Some oid →
  first_match (ById oid) (db_rental db) = Some (i, r) →
  fields r !! "status" = Some (VStr "returned") →
  return_rental env rental_id payload db
    = (inl (HTTPException 400 "Rental already returned"), db).
Proof.
  intros Hoid Hr Hst.
  assert (eq_str (fields r !! "status") "returned" = true) as Heq
    by by rewrite Hst.
  destruct (return_rental_outcomes env rental_id payload db)
    as [[Hbad _]|[(o & Ho & Hnone & _)|[(o & i' & r' & _ & _ & _ & Hres)|
        [(o & i' & r' & n & Ho & Hr' & Hnot & _)|
         [(o & i' & r' & co & Ho & Hr' & Hnot & _)|
          (o & i' & r' & co & j & c & Ho & Hr' & Hnot & _)]]]]];
    [by rewrite (ObjectId_is_valid_of_str _ _ Hoid) in Hbad
    |congruence|done|..];
    assert (r' = r) as -> by congruence; congruence.
Qed.

(** X9: whenever Return answers with an HTTP error it has written
    nothing, and the error is one of four: 400 for a malformed rental id,
    404 for an unknown rental, 400 for a rental already returned, 404 for
    a rental whose car is gone. *)
Theorem return_rental_http_error_writes_nothing
    (env : Env) (rental_id : string) (payload : ReturnRentalRequest)
    (db db' : DB) (status : Z) (detail : string) :
  return_rental env rental_id payload db
    = (inl (HTTPException status detail), db') →
  db' = db
  ∧ ((status = 400 ∧ detail = "Invalid rental_id"
      ∧ ObjectId_is_valid rental_id = false)
     ∨ (status = 404 ∧ detail = "Rental not found")
     ∨ (status = 400 ∧ detail = "Rental already returned")
     ∨ (status = 404 ∧ detail = "Car for rental not found")).
Proof.
  intros Hres.
  destruct (return_rental_outcomes env rental_id payload db)
    as [[Hbad H]|[(o & _ & _ & H)|[(o & i & r & _ & _ & _ & H)|
        [(o & i & r & n & _ & _ & _ & _ & H)|
         [(o & i & r & co & _ & _ & _ & _ & _ & H)|
          (o & i & r & co & j & c & _ & _ & _ & _ & _ & H)]]]]];
    cbn zeta in H.
  - rewrite Hres in H. injection H as -> -> ->. split; [done|]. by left.
  - rewrite Hres in H. injection H as -> -> ->. split; [done|].
    right. by left.
  - rewrite Hres in H. injection H as -> -> ->. split; [done|].
    right. right. by left.
  - by rewrite Hres in H.
  - rewrite Hres in H. injection H as -> -> ->. split; [done|].
    by repeat right.
  - destruct H as [(n & _ & H)|[(d & _ & _ & H)|(d & _ & _ & H)]];
      by rewrite Hres in H.
Qed.

Lemma return_rental_http_error_writes_nothing_witness :
  db_returned = db_returned
  ∧ ((400 = 400 ∧ "Rental already returned" = "Invalid rental_id"
      ∧ ObjectId_is_valid (ObjectId_str (sample_oid x02)) = false)
     ∨ (400 = 404 ∧ "Rental already returned" = "Rental not found")
     ∨ (400 = 400 ∧ "Rental already returned" = "Rental already returned")
     ∨ (400 = 404 ∧ "Rental already returned" = "Car for rental not found")).
Proof.
  apply (return_rental_http_error_writes_nothing
           (sample_env 0 x04) (ObjectId_str (sample_oid x02))
           ReturnRentalRequest_default db_returned db_returned).
  vm_compute. reflexivity.
Defined.

(** X10: when the rental and its car are found but [compute_invoice]
    raises, Return has already made both updates: the exception escapes,
    the rental is stored as returned, no invoice is stored, and every
    later Return of that rental is refused with HTTP 400, so the rental
    is never invoiced. *)
Theorem return_rental_failure_after_writes
    (env : Env) (rental_id : string) (payload : ReturnRentalRequest) (db : DB)
    (oid car_oid : ObjectId) (i j : nat) (r c : document) (e : exn) :
  ObjectId_of_str rental_id = Some oid →
  first_match (ById oid) (db_rental db) = Some (i, r) →
  eq_str (fields r !! "status") "returned" = false →
  rental_car_oid r = inr car_oid →
  first_match (ById car_oid) (db_car db) = Some (j, c) →
  compute_invoice c (returned_rental env r)
    (Some (float_or_zero (tax_rate payload))) (now env 3) = inl e →
  ∃ db',
    return_rental env rental_id payload db = (inl e, db')
    ∧ db_rental db' = <[i := returned_rental env r]> (db_rental db)
    ∧ db_car db' = <[j := returned_car env c]> (db_car db)
    ∧ db_invoice db' = db_invoice db
    ∧ ∀ env' payload',
        return_rental env' rental_id payload' db'
        = (inl (HTTPException 400 "Rental already returned"), db').
Proof.
  intros Hoid Hr Hnot Hco Hc Hinv.
  exists (db_after_updates env i r j c db).
  assert (return_rental env rental_id payload db
          = (inl e, db_after_updates env i r j c db)) as Hres.
  { destruct (return_rental_outcomes env rental_id payload db)
      as [[Hbad _]|[(o & Ho & Hnone & _)|[(o & i' & r' & Ho & Hr' & Hyes & _)|
          [(o & i' & r' & n & Ho & Hr' & _ & Hco' & _)|
           [(o & i' & r' & co & Ho & Hr' & _ & Hco' & Hnone & _)|
            (o & i' & r' & co & j' & c' & Ho & Hr' & _ & Hco' & Hc' & H)]]]]].
    - by rewrite (ObjectId_is_valid_of_str _ _ Hoid) in Hbad.
    - congruence.
    - assert (r' = r) as -> by congruence. congruence.
    - assert (r' = r) as -> by congruence. congruence.
    - assert (r' = r) as -> by congruence.
      assert (co = car_oid) as -> by congruence. congruence.
    - assert (o = oid) as -> by congruence.
      assert (i' = i ∧ r' = r) as [-> ->] by (split; congruence).
      assert (co = car_oid) as -> by congruence.
      assert (j' = j ∧ c' = c) as [-> ->] by (split; congruence).
      cbn zeta in H.
      destruct H as [(n & Hn & H)|[(d & Hd & _)|(d & Hd & _)]];
        [|congruence..].
      rewrite H. congruence. }
  split; [done|]. do 3 (split; [done|]).
  intros env' payload'.
  apply (return_rental_again env' rental_id payload' _ oid i
           (returned_rental env r)); [done| |by apply lookup_union_Some_l].
  cbn [db_after_updates db_rental].
  apply (first_match_insert_same _ _ _ _ _ Hr).
  cbn. apply bool_decide_eq_true_2. by apply first_match_ById_id in Hr.
Qed.

Lemma return_rental_failure_after_writes_witness :
  ∃ db',
    return_rental sample_return_env (ObjectId_str (sample_oid x02))
      ReturnRentalRequest_default db_nameless = (inl (Unhandled "KeyError"), db')
    ∧ db_rental db'
      = <[0%nat := returned_rental sample_return_env
                     (first_doc rental db_nameless)]> (db_rental db_nameless)
    ∧ db_car db'
      = <[0%nat := returned_car sample_return_env (first_doc car db_nameless)]>
          (db_car db_nameless)
    ∧ db_invoice db' = db_invoice db_nameless
    ∧ ∀ env' payload',
        return_rental env' (ObjectId_str (sample_oid x02)) payload' db'
        = (inl (HTTPException 400 "Rental already returned"), db').
Proof.
  apply (return_rental_failure_after_writes sample_return_env
           (ObjectId_str (sample_oid x02)) ReturnRentalRequest_default
           db_nameless (sample_oid x02) (sample_oid x01) 0 0
           (first_doc rental db_nameless) (first_doc car db_nameless)).
  - vm_compute. reflexivity.
  - vm_compute. reflexivity.
  - vm_compute. reflexivity.
  - vm_compute. reflexivity.
  - vm_compute. reflexivity.
  - vm_compute. reflexivity.
Defined.

(** X11: a successful Return stores the rental as returned, sets the
    car's [available] to true and leaves the car's other fields alone,
    appends exactly one invoice that names the rental, the car and the
    customer, answers with the stored rental and invoice, and makes every
    later Return of that rental fail with HTTP 400. *)
Theorem return_rental_success_effects
    (env : Env) (rental_id : string) (payload : ReturnRentalRequest)
    (db db' : DB) (rental_json invoice_json : jsondict) :
  return_rental env rental_id payload db
    = (inr (rental_json, invoice_json), db') →
  ∃ oid i r j c inv,
    ObjectId_of_str rental_id = Some oid
    ∧ first_match (ById oid) (db_rental db) = Some (i, r)
    ∧ rental_car_oid r = inr (_id c)
    ∧ first_match (ById (_id c)) (db_car db) = Some (j, c)
    ∧ db_rental db' = <[i := returned_rental env r]> (db_rental db)
    ∧ db_car db' = <[j := returned_car env c]> (db_car db)
    ∧ db_invoice db' = (db_invoice db ++ [inv])%list
    ∧ fields (returned_rental env r) !! "status" = Some (VStr "returned")
    ∧ fields (returned_car env c) !! "available" = Some (VBool true)
    ∧ (∀ k, k ≠ "available" → k ≠ "updated_at" →
            fields (returned_car env c) !! k = fields c !! k)
    ∧ _id inv = new_id env
    ∧ fields inv !! "rental_id" = Some (VStr (ObjectId_str oid))
    ∧ fields inv !! "car_id" = Some (VStr (ObjectId_str (_id c)))
    ∧ fields inv !! "customer_name" = fields r !! "customer_name"
    ∧ rental_json = serialize_doc (returned_rental env r)
    ∧ invoice_json = serialize_doc inv
    ∧ ∀ env' payload',
        return_rental env' rental_id payload' db'
        = (inl (HTTPException 400 "Rental already returned"), db').
Proof.
  intros Hres.
  destruct (return_rental_outcomes env rental_id payload db)
    as [[_ H]|[(o & _ & _ & H)|[(o & i & r & _ & _ & _ & H)|
        [(o & i & r & n & _ & _ & _ & _ & H)|
         [(o & i & r & co & _ & _ & _ & _ & _ & H)|
          (oid & i & r & co & j & c & Hoid & Hr & Hnot & Hco & Hc & H)]]]]];
    cbn zeta in H; try (by rewrite Hres in H).
  destruct H as [(n & _ & H)|[(d & _ & _ & H)|(data & Hinv & Hfresh & H)]];
    try (by rewrite Hres in H).
  rewrite Hres in H. injection H as -> -> ->.
  pose proof (first_match_ById_id _ _ _ _ Hr) as Hrid.
  pose proof (first_match_ById_id _ _ _ _ Hc) as Hcid. subst co.
  apply compute_invoice_inr in Hinv
    as (ts & te & rate & fdays & name & _ & _ & _ & _ & Hname & Hdata).
  cbn [InvoiceSchema] in Hdata. injection Hdata as Hdata.
  assert (fields (returned_rental env r) !! "customer_name"
          = fields r !! "customer_name") as Hsame.
  { cbn [returned_rental fields]. by apply lookup_union_r. }
  exists oid, i, r, j, c, (mkDocument (new_id env) (bson_value <$> data)).
  subst data.
  do 7 (split; [done|]).
  split; [by apply lookup_union_Some_l|].
  split; [by apply lookup_union_Some_l|].
  split.
  { intros k Hk1 Hk2. cbn [returned_car fields]. apply lookup_union_r.
    by rewrite !lookup_insert_ne. }
  split; [done|]. cbn [fields _id returned_rental] in *.
  split; [by rewrite Hrid|]. split; [done|].
  split; [rewrite <- Hsame, Hname; reflexivity|].
  split; [done|]. split; [done|].
  intros env' payload'.
  apply (return_rental_again env' rental_id payload' _ oid i
           (returned_rental env r)); [done| |by apply lookup_union_Some_l].
  cbn [db_after_updates db_rental].
  apply (first_match_insert_same _ _ _ _ _ Hr).
  cbn. by apply bool_decide_eq_true_2.
Qed.

Lemma return_rental_success_effects_witness :
  fields (first_doc rental db_returned) !! "status" = Some (VStr "returned")
  ∧ fields (first_doc car db_returned) !! "available" = Some (VBool true)
  ∧ length (db_invoice db_returned) = S (length (db_invoice db_rented))
  ∧ ∀ env' payload',
      return_rental env' (ObjectId_str (sample_oid x02)) payload' db_returned
      = (inl (HTTPException 400 "Rental already returned"), db_returned).
Proof.
  assert (return_rental sample_return_env (ObjectId_str (sample_oid x02))
            ReturnRentalRequest_default db_rented
          = (inr (sample_rental_json, sample_invoice_json), db_returned))
    as Hrun by (vm_compute; reflexivity).
  destruct (return_rental_success_effects _ _ _ _ _ _ _ Hrun)
    as (oid & i & r & j & c & inv & _ & _ & _ & _ & _ & _ & Hinv & _ & _ & _
        & _ & _ & _ & _ & _ & _ & Hagain).
  split; [vm_compute; reflexivity|]. split; [vm_compute; reflexivity|].
  split; [|exact Hagain].
  rewrite Hinv, length_app. cbn. lia.
Defined.

(** ** Start: what success leaves behind *)

(** X12: a successful Start stores one new rental, active, without end
    date, started at the clock reading kept to the millisecond, for the
    customer and the car of the request; the answer is that rental and
    the list of active rentals shows it; the car is marked unavailable,
    and every later Start on the same car is refused with HTTP 400. *)
Theorem start_rental_success_effects
    (env : Env) (payload : StartRentalRequest) (db db' : DB)
    (created : jsondict) :
  start_rental env payload db = (inr created, db') →
  ∃ oid i c listed,
    ObjectId_of_str (car_id payload) = Some oid
    ∧ first_match (ById oid) (db_car db) = Some (i, c)
    ∧ car_is_available c = true
    ∧ db_rental db' = (db_rental db ++ [started_rental env payload c])%list
    ∧ db_car db' = <[i := started_car env c]> (db_car db)
    ∧ db_invoice db' = db_invoice db
    ∧ created = serialize_doc (started_rental env payload c)
    ∧ created !! "_id" = Some (JStr (ObjectId_str (new_id env)))
    ∧ created !! "car_id" = Some (JStr (ObjectId_str oid))
    ∧ created !! "customer_name" = Some (JStr (customer_name payload))
    ∧ created !! "status" = Some (JStr "active")
    ∧ created !! "end_date" = Some JNull
    ∧ created !! "start_date" = Some (JIsoUTC (bson_datetime (now env 0)))
    ∧ fields (started_car env c) !! "available" = Some (VBool false)
    ∧ list_active_rentals db' = (inr listed, db')
    ∧ created ∈ listed
    ∧ ∀ env' payload',
        ObjectId_of_str (car_id payload') = Some oid →
        start_rental env' payload' db'
        = (inl (HTTPException 400 "Car is not available"), db').
Proof.
  intros Hres.
  destruct (start_rental_cases env payload db)
    as [[_ H]|[(o & _ & _ & H)|[(o & i & c & _ & _ & _ & H)|
        [(o & i & c & _ & _ & _ & _ & H)|
         (oid & i & c & Hoid & Hc & Hav & Hfresh & H)]]]];
    try (by rewrite Hres in H).
  rewrite Hres in H. injection H as -> ->.
  pose proof (first_match_ById_id _ _ _ _ Hc) as Hcid.
  assert (fields (started_car env c) !! "available" = Some (VBool false))
    as Hbusy by by apply lookup_union_Some_l.
  eexists oid, i, c, _. do 7 (split; [done|]).
  split; [reflexivity|]. split; [by rewrite <- Hcid|].
  do 4 (split; [reflexivity|]). split; [done|].
  split; [reflexivity|]. split.
  { apply list_elem_of_fmap. eexists. split; [reflexivity|].
    cbn [db_get db_rental]. apply list_elem_of_filter. split.
    - reflexivity.
    - apply elem_of_app. right. apply list_elem_of_here. }
  intros env' payload' Hoid'.
  assert (first_match (ById oid) (<[i := started_car env c]> (db_car db))
          = Some (i, started_car env c)) as Hfound.
  { apply (first_match_insert_same _ _ _ _ _ Hc). cbn.
    by apply bool_decide_eq_true_2. }
  assert (car_is_available (started_car env c) = false) as Hno.
  { unfold car_is_available. by rewrite Hbusy. }
  match goal with |- start_rental env' payload' ?d = _ =>
    destruct (start_rental_cases env' payload' d)
      as [[Hbad _]|[(o & Ho & Hnone & _)|[(o & i' & c' & Ho & Hc' & _ & Hrun)|
          [(o & i' & c' & Ho & Hc' & Hav' & _)|
           (o & i' & c' & Ho & Hc' & Hav' & _)]]]]
  end; cbn [db_car] in *.
  - by rewrite (ObjectId_is_valid_of_str _ _ Hoid') in Hbad.
  - congruence.
  - done.
  - assert (c' = started_car env c) as -> by congruence. congruence.
  - assert (c' = started_car env c) as -> by congruence. congruence.
Qed.

Lemma start_rental_success_effects_witness :
  fields (first_doc car db_rented) !! "available" = Some (VBool false)
  ∧ length (db_rental db_rented) = S (length (db_rental db_with_car))
  ∧ ∀ env' payload',
      ObjectId_of_str (car_id payload') = Some (sample_oid x01) →
      start_rental env' payload' db_rented
      = (inl (HTTPException 400 "Car is not available"), db_rented).
Proof.
  assert (start_rental (sample_env (mk_datetime 2024 1 1 0 0 0 0) x02)
            sample_start_request db_with_car
          = (inr (serialize_doc (first_doc rental db_rented)), db_rented))
    as Hrun by (vm_compute; reflexivity).
  destruct (start_rental_success_effects _ _ _ _ _ Hrun)
    as (oid & i & c & listed & Hoid & _ & _ & Hr & _ & _ & _ & _ & _ & _ & _
        & _ & _ & _ & _ & _ & Hagain).
  assert (oid = sample_oid x01) as ->.
  { assert (ObjectId_of_str (car_id sample_start_request)
            = Some (sample_oid x01)) as H by (vm_compute; reflexivity).
    congruence. }
  split; [vm_compute; reflexivity|]. split; [|exact Hagain].
  rewrite Hr, length_app. cbn. lia.
Defined.

(** ** Car creation: validation and success *)

(** Every run of car creation, with what it answers. *)
Lemma add_car_outcomes (env : Env) (payload : CreateCarRequest) (db : DB) :
  let res := add_car env payload db in
  let schema :=
    CarSchema (make payload) (model payload) (year payload)
      (plate_number payload) (daily_rate payload) true in
  let plate := first_match (ByField "plate_number" (plate_number payload))
                 (db_car db) in
  (is_Some plate
   ∧ res = (inl (HTTPException 400 "Plate number already exists"), db))
  ∨ (plate = None ∧ schema = inl (Unhandled "ValidationError")
     ∧ res = (inl (Unhandled "ValidationError"), db))
  ∨ (∃ data, plate = None ∧ schema = inr data
      ∧ new_id env ∈ (_id <$> db_car db)
      ∧ res = (inl (Unhandled "DuplicateKeyError"), db))
  ∨ (∃ data, plate = None ∧ schema = inr data
      ∧ (new_id env ∉ (_id <$> db_car db))
      ∧ let car_doc := mkDocument (new_id env) (bson_value <$> data) in
        res = (inr (serialize_doc car_doc),
               mkDB (db_car db ++ [car_doc]) (db_rental db) (db_invoice db))).
Proof.
  cbn zeta.
  remember (add_car env payload db) as res eqn:E. unfold add_car in E.
  rewrite bind_run, find_one_run in E. cbn [db_get] in E.
  destruct (first_match _ (db_car db)) as [[i d]|] eqn:Hplate;
    cbn [fmap option_fmap option_map snd] in E; [by left|].
  right. rewrite bind_run, lift_run in E.
  destruct (CarSchema _ _ _ _ _ _) as [e|data] eqn:Hdata.
  { left. split; [done|]. unfold CarSchema in Hdata.
    destruct (_ && _); [done|]. injection Hdata as <-. by split. }
  right. unfold create_document, insert_one in E. rewrite !bind_run in E.
  cbn [db_get] in E.
  destruct (bool_decide (new_id env ∈ (_id <$> db_car db))) eqn:Hdup.
  { left. apply bool_decide_eq_true_1 in Hdup. by exists data. }
  right. apply bool_decide_eq_false_1 in Hdup.
  exists data. do 3 (split; [done|]).
  unfold mret, M_ret in E.
  rewrite ObjectId_ctor_str, bind_run, lift_run, bind_run, find_one_run in E.
  cbn [db_get db_set db_car db_rental db_invoice] in E.
  rewrite (first_match_app_new (new_id env) (db_car db)
             (mkDocument (new_id env) (bson_value <$> data))) in E;
    [exact E | done | by apply first_match_ById_None].
Qed.

(** X13: a request for a car with a new plate number whose year lies
    outside 1900..2100, or whose daily rate is not at least 0, fails the
    Car schema: the ValidationError escapes the handler and nothing is
    stored. *)
Theorem add_car_validation (env : Env) (payload : CreateCarRequest) (db : DB) :
  find_one car (ByField "plate_number" (plate_number payload)) db
    = (inr None, db) →
  year payload < 1900 ∨ 2100 < year payload
  ∨ PrimFloat.leb 0 (daily_rate payload) = false →
  add_car env payload db = (inl (Unhandled "ValidationError"), db).
Proof.
  intros Hplate%find_one_None_inv Hbad. cbn [db_get] in Hplate.
  assert (CarSchema (make payload) (model payload) (year payload)
            (plate_number payload) (daily_rate payload) true
          = inl (Unhandled "ValidationError")) as Hschema.
  { unfold CarSchema.
    destruct (1900 <=? year payload) eqn:H1; [|done].
    destruct (year payload <=? 2100) eqn:H2; [|done].
    destruct (PrimFloat.leb 0 (daily_rate payload)) eqn:H3; [|done].
    destruct Hbad as [H|[H|H]]; [lia|lia|done]. }
  destruct (add_car_outcomes env payload db)
    as [[[x Hx] _]|[(_ & _ & H)|[(d & _ & Hd & _)|(d & _ & Hd & _)]]];
    cbn zeta in *; [congruence|done|congruence..].
Qed.

Lemma add_car_validation_witness :
  add_car (sample_env 0 x07)
    (mkCreateCarRequest "Ford" "Model T" 1899 "OLD-1" 10%float) db_with_car
  = (inl (Unhandled "ValidationError"), db_with_car).
Proof.
  apply add_car_validation.
  - vm_compute. reflexivity.
  - left. vm_compute. reflexivity.
Defined.

(** X14: a successful car creation has passed the schema, found no car
    with the plate number, and stored exactly one car, last in the
    collection, with the fields of the request and [available] true; the
    answer is that car, [list_cars] ends with it, and every later request
    with the same plate number is refused with HTTP 400. *)
Theorem add_car_success_effects
    (env : Env) (payload : CreateCarRequest) (db db' : DB)
    (created : jsondict) :
  add_car env payload db = (inr created, db') →
  (1900 ≤ year payload ≤ 2100)
  ∧ PrimFloat.leb 0 (daily_rate payload) = true
  ∧ (∀ c, c ∈ db_car db →
          fields c !! "plate_number" ≠ Some (VStr (plate_number payload)))
  ∧ ∃ car_doc,
      _id car_doc = new_id env
      ∧ db_car db' = (db_car db ++ [car_doc])%list
      ∧ db_rental db' = db_rental db
      ∧ db_invoice db' = db_invoice db
      ∧ created = serialize_doc car_doc
      ∧ created !! "_id" = Some (JStr (ObjectId_str (new_id env)))
      ∧ created !! "make" = Some (JStr (make payload))
      ∧ created !! "model" = Some (JStr (model payload))
      ∧ created !! "year" = Some (JInt (year payload))
      ∧ created !! "plate_number" = Some (JStr (plate_number payload))
      ∧ created !! "daily_rate" = Some (JFloat (daily_rate payload))
      ∧ created !! "available" = Some (JBool true)
      ∧ list_cars db'
        = (inr ((serialize_doc <$> db_car db) ++ [created])%list, db')
      ∧ ∀ env' payload',
          plate_number payload' = plate_number payload →
          add_car env' payload' db'
          = (inl (HTTPException 400 "Plate number already exists"), db').
Proof.
  intros Hres.
  destruct (add_car_outcomes env payload db)
    as [[_ H]|[(_ & _ & H)|[(d & _ & _ & _ & H)|
        (data & Hplate & Hdata & Hfresh & H)]]];
    cbn zeta in *; try (by rewrite Hres in H).
  rewrite Hres in H. injection H as -> ->.
  unfold CarSchema in Hdata.
  destruct (1900 <=? year payload) eqn:H1; [|done].
  destruct (year payload <=? 2100) eqn:H2; [|done].
  destruct (PrimFloat.leb 0 (daily_rate payload)) eqn:H3; [|done].
  cbn [andb] in Hdata. injection Hdata as <-.
  split; [lia|]. split; [done|]. split.
  { intros c Hc Heq. unfold first_match in Hplate.
    apply list_find_None in Hplate. rewrite Forall_forall in Hplate.
    apply (Hplate c Hc). cbn. rewrite Heq. cbn.
    by rewrite String.eqb_refl. }
  eexists (mkDocument (new_id env) _).
  split; [reflexivity|]. do 3 (split; [reflexivity|]).
  split; [reflexivity|]. do 7 (split; [reflexivity|]).
  split.
  { unfold list_cars, get_documents. rewrite bind_run. cbn [db_get db_car].
    by rewrite fmap_app. }
  intros env' payload' Hsame.
  match goal with |- add_car env' payload' ?d = _ =>
    destruct (add_car_outcomes env' payload' d)
      as [[_ H]|[(Hnone & _)|[(x & Hnone & _)|(x & Hnone & _)]]]
  end; cbn zeta in *; [done|exfalso..];
    cbn [db_car] in Hnone;
    match type of Hnone with first_match ?q (?l ++ [?d]) = None =>
      destruct (first_match_elem q (l ++ [d]) (length l) d) as [y Hy];
        [by rewrite lookup_app_r, Nat.sub_diag
        |cbn; rewrite Hsame; cbn; apply String.eqb_refl
        |congruence]
    end.
Qed.

Lemma add_car_success_effects_witness :
  (1900 ≤ year sample_car_request ≤ 2100)
  ∧ length (db_car db_with_car) = 1%nat
  ∧ ∀ env' payload',
      plate_number payload' = plate_number sample_car_request →
      add_car env' payload' db_with_car
      = (inl (HTTPException 400 "Plate number already exists"), db_with_car).
Proof.
  assert (add_car (sample_env (mk_datetime 2023 12 31 9 0 0 0) x01)
            sample_car_request empty_db
          = (inr (serialize_doc (first_doc car db_with_car)), db_with_car))
    as Hrun by (vm_compute; reflexivity).
  destruct (add_car_success_effects _ _ _ _ _ Hrun)
    as (Hyear & _ & _ & d & _ & Hcars & _ & _ & _ & _ & _ & _ & _ & _ & _ & _
        & _ & Hagain).
  split; [exact Hyear|]. split; [|exact Hagain].
  rewrite Hcars. reflexivity.
Defined.

(** ** Further invariants of the reachable states *)

Lemma fmap_insert_same {B} (f : document → B) (l : list document) (i : nat)
    (d d' : document) :
  l !! i = Some d → f d' = f d → f <$> <[i := d']> l = f <$> l.
Proof.
  intros Hi Hf. rewrite list_fmap_insert, Hf.
  apply list_insert_id. by rewrite list_lookup_fmap, Hi.
Qed.

Lemma written_consistent (db db' : DB) :
  written db db' → consistent db → consistent db'.
Proof.
  intros [| | |] Hcons; [done|..].
  - by apply (consistent_add_car db (mkDocument (new_id env) _)).
  - by eapply consistent_start.
  - apply (consistent_invoices (db_after_updates env i r j c db)).
    by eapply consistent_return.
Qed.

Lemma started_car_plate (env : Env) (c : document) :
  fields (started_car env c) !! "plate_number" = fields c !! "plate_number".
Proof. cbn [started_car fields]. by apply lookup_union_r. Qed.

Lemma returned_car_plate (env : Env) (c : document) :
  fields (returned_car env c) !! "plate_number" = fields c !! "plate_number".
Proof. cbn [returned_car fields]. by apply lookup_union_r. Qed.

Lemma written_plates_distinct (db db' : DB) :
  written db db' → plates_distinct db → plates_distinct db'.
Proof.
  unfold plates_distinct, car_plates.
  intros [|env p data Hplate Hdata Hfresh|env p oid i c Hc _ _
          |env tax oid co i j r c inv' _ _ _ Hc _] [Hnd Hstr];
    cbn [db_car]; [done|..].
  - unfold CarSchema in Hdata. destruct (_ && _); [|done].
    injection Hdata as <-. rewrite fmap_app. cbn [fmap list_fmap fields].
    change ((bson_value <$> _) !! "plate_number")
      with (Some (VStr (plate_number p))).
    split.
    + apply NoDup_app. split; [done|]. split; [|apply NoDup_singleton].
      intros x Hx Hin%list_elem_of_singleton. subst x.
      apply list_elem_of_fmap in Hx as (c & Heq & Hc).
      unfold first_match in Hplate. apply list_find_None in Hplate.
      rewrite Forall_forall in Hplate. apply (Hplate c Hc).
      cbn. rewrite <- Heq. cbn. by rewrite String.eqb_refl.
    + intros x [Hx|Hx%list_elem_of_singleton]%elem_of_app; [by apply Hstr|].
      subst x. eauto.
  - apply first_match_Some in Hc as (Hc & _ & _).
    by rewrite (fmap_insert_same _ _ _ c _ Hc (started_car_plate env c)).
  - apply first_match_Some in Hc as (Hc & _ & _).
    by rewrite (fmap_insert_same _ _ _ c _ Hc (returned_car_plate env c)).
Qed.

(** X15: in every reachable state each stored car has a plate number and
    two cars at different places in the collection have different plate
    numbers. *)
Theorem reachable_plates_distinct (db : DB) (i j : nat) (c1 c2 : document) :
  reachable db →
  db_car db !! i = Some c1 → db_car db !! j = Some c2 → i ≠ j →
  (∃ p1 p2, fields c1 !! "plate_number" = Some (VStr p1)
            ∧ fields c2 !! "plate_number" = Some (VStr p2)
            ∧ p1 ≠ p2).
Proof.
  intros Hreach.
  assert (plates_distinct db) as [Hnd Hstr].
  { revert db Hreach. apply reachable_written_ind.
    - split; [apply NoDup_nil_2|]. intros x Hx. by apply elem_of_nil in Hx.
    - intros db db' _ Hinv Hw. by eapply written_plates_distinct. }
  intros Hi Hj Hne.
  assert (car_plates db !! i = Some (fields c1 !! "plate_number")) as Hpi
    by (unfold car_plates; by rewrite list_lookup_fmap, Hi).
  assert (car_plates db !! j = Some (fields c2 !! "plate_number")) as Hpj
    by (unfold car_plates; by rewrite list_lookup_fmap, Hj).
  destruct (Hstr _ (list_elem_of_lookup_2 _ _ _ Hpi)) as [p1 Hp1].
  destruct (Hstr _ (list_elem_of_lookup_2 _ _ _ Hpj)) as [p2 Hp2].
  exists p1, p2. split; [done|]. split; [done|]. intros ->.
  apply Hne. apply (NoDup_lookup _ i j _ Hnd Hpi). by rewrite Hpj, Hp2, <- Hp1.
Qed.

Lemma reachable_plates_distinct_witness :
  ∃ p1 p2,
    fields (first_doc car db_two_cars) !! "plate_number" = Some (VStr p1)
    ∧ fields (default (first_doc car db_two_cars) (db_car db_two_cars !! 1%nat))
        !! "plate_number" = Some (VStr p2)
    ∧ p1 ≠ p2.
Proof.
  apply (reachable_plates_distinct db_two_cars 0 1).
  - unfold db_two_cars, db_rented, db_with_car.
    apply reachable_request, reachable_request, reachable_request,
      reachable_empty.
  - vm_compute. reflexivity.
  - vm_compute. reflexivity.
  - lia.
Defined.

Lemma return_rental_car_ref (db : DB) (oid car_oid : ObjectId) (i j : nat)
    (r c : document) :
  consistent db →
  first_match (ById oid) (db_rental db) = Some (i, r) →
  eq_str (fields r !! "status") "returned" = false →
  rental_car_oid r = inr car_oid →
  first_match (ById car_oid) (db_car db) = Some (j, c) →
  is_active r = true
  ∧ fields r !! "car_id" = Some (VStr (ObjectId_str (_id c))).
Proof.
  intros [Hnd Hst Hcar _] Hr Hnot Hoid Hc.
  pose proof (first_match_Some _ _ _ _ Hr) as (Hi & _ & _).
  pose proof (first_match_Some _ _ _ _ Hc) as (Hj & _ & _).
  pose proof (first_match_ById_id _ _ _ _ Hc) as Hcid.
  assert (r ∈ db_rental db) as Hrin by by eapply list_elem_of_lookup_2.
  assert (c ∈ db_car db) as Hcin by by eapply list_elem_of_lookup_2.
  assert (is_active r = true) as Hact.
  { apply is_active_status. destruct (Hst r Hrin) as [H|H]; [done|].
    rewrite H in Hnot. by vm_compute in Hnot. }
  split; [done|].
  destruct (Hcar r Hrin Hact) as (c1 & Hc1 & Hid & _).
  unfold rental_car_oid in Hoid. rewrite Hid in Hoid.
  cbn [ObjectId_of_value] in Hoid.
  rewrite ObjectId_ctor_str in Hoid. injection Hoid as Hoid.
  assert (c1 = c) as -> by (eapply NoDup_fmap_elem_eq; [done..|congruence]).
  done.
Qed.

Lemma written_availability_exact (db db' : DB) :
  written db db' → consistent db → availability_exact db →
  availability_exact db'.
Proof.
  unfold availability_exact.
  intros [|env p data _ Hdata _|env p oid i c Hc _ _
          |env tax oid co i j r c inv' Hr Hnot Hco Hc _] Hcons Hex;
    cbn [db_car db_rental]; [done|..].
  - intros x [Hx|Hx%list_elem_of_singleton]%elem_of_app; [by apply Hex|].
    subst x. left. unfold CarSchema in Hdata. destruct (_ && _); [|done].
    by injection Hdata as <-.
  - apply first_match_Some in Hc as (Hc & _ & _).
    intros x [k Hk]%list_elem_of_lookup.
    apply list_lookup_insert_Some in Hk as [(_ & <- & _)|[Hne Hk]].
    + right. split; [by apply lookup_union_Some_l|].
      exists (started_rental env p c). split; [|by split].
      apply elem_of_app. right. apply list_elem_of_here.
    + destruct (Hex x (list_elem_of_lookup_2 _ _ _ Hk))
        as [H|(H & r & Hr & Hact & Href)]; [by left|].
      right. split; [done|]. exists r. split; [|done].
      apply elem_of_app. by left.
  - destruct (return_rental_car_ref db oid co i j r c Hcons Hr Hnot Hco Hc)
      as [_ Href].
    pose proof Hcons as [Hnd _ _ _].
    pose proof (first_match_Some _ _ _ _ Hc) as (Hj & _ & _).
    pose proof (first_match_Some _ _ _ _ Hr) as (Hi & _ & _).
    intros x [k Hk]%list_elem_of_lookup.
    apply list_lookup_insert_Some in Hk as [(_ & <- & _)|[Hne Hk]].
    + left. by apply lookup_union_Some_l.
    + destruct (Hex x (list_elem_of_lookup_2 _ _ _ Hk))
        as [H|(H & r0 & [a Ha]%list_elem_of_lookup & Hact & Href0)];
        [by left|].
      right. split; [done|]. exists r0. split; [|done].
      apply list_elem_of_lookup. exists a.
      rewrite list_lookup_insert_ne; [done|].
      intros <-. assert (r0 = r) as -> by congruence.
      apply Hne.
      assert (_id c = _id x) as Hsame
        by (apply ObjectId_str_inj; congruence).
      apply (NoDup_lookup (_id <$> db_car db) j k (_id c)); [done| |].
      * by rewrite list_lookup_fmap, Hj.
      * by rewrite list_lookup_fmap, Hk, Hsame.
Qed.

(** X16: in every reachable state a stored car is marked unavailable
    exactly when an active rental names it: its [available] field is
    false and it has an active rental, or the field is true and it has
    none.  No car stays unavailable after its rental is returned. *)
Theorem reachable_availability_exact (db : DB) (c : document) :
  reachable db → c ∈ db_car db →
  (fields c !! "available" = Some (VBool false)
   ∧ active_rentals_of db c ≠ [])
  ∨ (fields c !! "available" = Some (VBool true)
     ∧ active_rentals_of db c = []).
Proof.
  intros Hreach Hc.
  pose proof (reachable_consistent db Hreach) as Hcons.
  assert (availability_exact db) as Hex.
  { clear c Hc Hcons. revert db Hreach.
    apply (reachable_written_ind availability_exact).
    - intros c Hc. by apply elem_of_nil in Hc.
    - intros db db' Hreach Hinv Hw.
      apply (written_availability_exact db db' Hw); [|done].
      by apply reachable_consistent. }
  destruct (Hex c Hc) as [Hfree|(Hbusy & r & Hr & Hact & Href)].
  - right. split; [done|].
    destruct (active_rentals_of db c) as [|r t] eqn:Hf; [done|].
    assert (r ∈ active_rentals_of db c) as Hr
      by (rewrite Hf; apply list_elem_of_here).
    apply list_elem_of_filter in Hr as [[Hact Href]%andb_prop_elim Hr].
    apply Is_true_true in Hact. apply Is_true_true, eq_str_true in Href.
    destruct Hcons as [Hnd _ Hcar _].
    destruct (Hcar r Hr Hact) as (c0 & Hc0 & Hid & Hbusy).
    assert (_id c0 = _id c) as Hsame by (apply ObjectId_str_inj; congruence).
    assert (c0 = c) as -> by by eapply NoDup_fmap_elem_eq.
    congruence.
  - left. split; [done|]. intros Hnone.
    assert (r ∈ active_rentals_of db c) as Hin; [|by rewrite Hnone in Hin;
      apply elem_of_nil in Hin].
    apply list_elem_of_filter. split; [|done].
    apply andb_prop_intro. split; apply Is_true_true; [done|].
    by apply eq_str_true.
Qed.

Lemma reachable_availability_exact_witness :
  (fields (first_doc car db_returned) !! "available" = Some (VBool false)
   ∧ active_rentals_of db_returned (first_doc car db_returned) ≠ [])
  ∨ (fields (first_doc car db_returned) !! "available" = Some (VBool true)
     ∧ active_rentals_of db_returned (first_doc car db_returned) = []).
Proof.
  apply (reachable_availability_exact db_returned).
  - unfold db_returned, db_rented, db_with_car.
    apply reachable_request, reachable_request, reachable_request,
      reachable_empty.
  - apply list_elem_of_lookup. exists 0%nat. vm_compute. reflexivity.
Defined.

Lemma compute_invoice_rental_id (car_doc rental_doc : document)
    (tax : option float) (utcnow : datetime) (data : pydict) :
  compute_invoice car_doc rental_doc tax utcnow = inr data →
  (bson_value <$> data) !! "rental_id"
  = Some (VStr (ObjectId_str (_id rental_doc))).
Proof.
  intros (ts & te & rate & fdays & name & _ & _ & _ & _ & _ & Hdata)
    %compute_invoice_inr.
  cbn [InvoiceSchema] in Hdata. by injection Hdata as <-.
Qed.

Lemma written_invoices_sound (db db' : DB) :
  written db db' → invoices_sound db → invoices_sound db'.
Proof.
  unfold invoices_sound, invoiced_rentals.
  intros [|env p data _ _ _|env p oid i c _ _ Hfresh
          |env tax oid co i j r c inv' Hr Hnot _ _ Hinv] (Hids & Hnames & Hnd);
    cbn [db_rental db_invoice]; [done..| |].
  - split; [|split; [|done]].
    + rewrite fmap_app. apply NoDup_app. split; [done|].
      split; [|apply NoDup_singleton].
      intros x Hx Hin%list_elem_of_singleton. by subst x.
    + intros v Hv. destruct (Hnames v Hv) as (r & Hr & Hrest).
      exists r. split; [|done]. apply elem_of_app. by left.
  - pose proof (first_match_Some _ _ _ _ Hr) as (Hi & _ & _).
    assert (∀ r0, r0 ∈ db_rental db →
              fields r0 !! "status" = Some (VStr "returned") →
              r0 ∈ <[i := returned_rental env r]> (db_rental db)) as Hkept.
    { intros r0 [a Ha]%list_elem_of_lookup Hst.
      apply list_elem_of_lookup. exists a.
      rewrite list_lookup_insert_ne; [done|].
      intros <-. assert (r0 = r) as -> by congruence.
      rewrite Hst in Hnot. by vm_compute in Hnot. }
    assert (∀ v, v ∈ db_invoice db →
              ∃ r0, r0 ∈ <[i := returned_rental env r]> (db_rental db)
                    ∧ fields v !! "rental_id"
                      = Some (VStr (ObjectId_str (_id r0)))
                    ∧ fields r0 !! "status" = Some (VStr "returned")) as Hold.
    { intros v Hv. destruct (Hnames v Hv) as (r0 & Hr0 & Hid & Hst).
      exists r0. split; [by apply Hkept|done]. }
    split; [by rewrite (fmap_id_insert_same _ _ r)|].
    destruct Hinv as [->|(data & Hdata & _ & ->)]; [by split|].
    apply compute_invoice_rental_id in Hdata. cbn [returned_rental _id] in Hdata.
    split.
    + intros v [Hv|Hv%list_elem_of_singleton]%elem_of_app; [by apply Hold|].
      subst v. exists (returned_rental env r). split; [|split].
      * apply list_elem_of_lookup. exists i.
        apply list_lookup_insert_eq. by eapply lookup_lt_Some.
      * done.
      * by apply lookup_union_Some_l.
    + rewrite fmap_app. apply NoDup_app. split; [done|].
      split; [|apply NoDup_singleton].
      intros x Hx Hin%list_elem_of_singleton. subst x.
      apply list_elem_of_fmap in Hx as (v & Heq & Hv).
      cbn [fields] in Heq. rewrite Hdata in Heq.
      destruct (Hnames v Hv) as (r0 & Hr0 & Hid & Hst).
      assert (_id r0 = _id r) as Hsame
        by (apply ObjectId_str_inj; congruence).
      assert (r0 = r) as ->.
      { apply (NoDup_fmap_elem_eq _id (db_rental db)); [done..| |done].
        by eapply list_elem_of_lookup_2. }
      rewrite Hst in Hnot. by vm_compute in Hnot.
Qed.

(** X17: in every reachable state each stored invoice names a stored
    rental whose status is "returned", and two invoices at different
    places in the collection name different rentals: no rental is
    invoiced twice. *)
Theorem reachable_invoices_sound (db : DB) :
  reachable db →
  (∀ v, v ∈ db_invoice db →
     ∃ r, r ∈ db_rental db
          ∧ fields v !! "rental_id" = Some (VStr (ObjectId_str (_id r)))
          ∧ fields r !! "status" = Some (VStr "returned"))
  ∧ ∀ i j v1 v2,
      db_invoice db !! i = Some v1 → db_invoice db !! j = Some v2 → i ≠ j →
      fields v1 !! "rental_id" ≠ fields v2 !! "rental_id".
Proof.
  intros Hreach.
  assert (invoices_sound db) as (_ & Hnames & Hnd).
  { revert db Hreach. apply (reachable_written_ind invoices_sound).
    - split; [apply NoDup_nil_2|]. split; [|apply NoDup_nil_2].
      intros v Hv. by apply elem_of_nil in Hv.
    - intros db db' _ Hinv Hw. by eapply written_invoices_sound. }
  split; [done|]. intros i j v1 v2 Hi Hj Hne Heq. apply Hne.
  apply (NoDup_lookup (invoiced_rentals db) i j (fields v1 !! "rental_id"));
    [done|..]; unfold invoiced_rentals; rewrite list_lookup_fmap.
  - by rewrite Hi.
  - by rewrite Hj, Heq.
Qed.

Lemma reachable_invoices_sound_witness :
  (∀ v, v ∈ db_invoice db_returned →
     ∃ r, r ∈ db_rental db_returned
          ∧ fields v !! "rental_id" = Some (VStr (ObjectId_str (_id r)))
          ∧ fields r !! "status" = Some (VStr "returned"))
  ∧ ∀ i j v1 v2,
      db_invoice db_returned !! i = Some v1 →
      db_invoice db_returned !! j = Some v2 → i ≠ j →
      fields v1 !! "rental_id" ≠ fields v2 !! "rental_id".
Proof.
  apply (reachable_invoices_sound db_returned).
  unfold db_returned, db_rented, db_with_car.
  apply reachable_request, reachable_request, reachable_request,
    reachable_empty.
Defined.

Lemma written_records_shaped (db db' : DB) :
  written db db' → records_shaped db → records_shaped db'.
Proof.
  unfold records_shaped.
  intros [|env p data _ Hdata _|env p oid i c Hc _ _
          |env tax oid co i j r c inv' Hr _ _ Hc Hinv] (Hrent & Hcar & Hnd);
    cbn [db_car db_rental db_invoice]; [done|..].
  - split; [done|]. split; [|done].
    intros x [Hx|Hx%list_elem_of_singleton]%elem_of_app; [by apply Hcar|].
    subst x. unfold CarSchema in Hdata. destruct (_ && _); [|done].
    injection Hdata as <-. by eexists.
  - apply first_match_Some in Hc as (Hc & _ & _).
    split; [|split; [|done]].
    + intros x [Hx|Hx%list_elem_of_singleton]%elem_of_app; [by apply Hrent|].
      subst x. split; by eexists.
    + intros x [k Hk]%list_elem_of_lookup.
      apply list_lookup_insert_Some in Hk as [(_ & <- & _)|[_ Hk]].
      * destruct (Hcar c (list_elem_of_lookup_2 _ _ _ Hc)) as [rate Hrate].
        exists rate. cbn [started_car fields]. by rewrite lookup_union_r.
      * by apply Hcar, (list_elem_of_lookup_2 _ k).
  - apply first_match_Some in Hc as (Hc & _ & _).
    apply first_match_Some in Hr as (Hr & _ & _).
    split; [|split].
    + intros x [k Hk]%list_elem_of_lookup.
      apply list_lookup_insert_Some in Hk as [(_ & <- & _)|[_ Hk]].
      * destruct (Hrent r (list_elem_of_lookup_2 _ _ _ Hr))
          as [[name Hname] [ts Hts]].
        split; [exists name|exists ts]; cbn [returned_rental fields];
          by rewrite lookup_union_r.
      * by apply Hrent, (list_elem_of_lookup_2 _ k).
    + intros x [k Hk]%list_elem_of_lookup.
      apply list_lookup_insert_Some in Hk as [(_ & <- & _)|[_ Hk]].
      * destruct (Hcar c (list_elem_of_lookup_2 _ _ _ Hc)) as [rate Hrate].
        exists rate. cbn [returned_car fields]. by rewrite lookup_union_r.
      * by apply Hcar, (list_elem_of_lookup_2 _ k).
    + destruct Hinv as [->|(data & _ & Hfresh & ->)]; [done|].
      rewrite fmap_app. apply NoDup_app. split; [done|].
      split; [|apply NoDup_singleton].
      intros x Hx Hin%list_elem_of_singleton. by subst x.
Qed.

Lemma reachable_records_shaped (db : DB) : reachable db → records_shaped db.
Proof.
  revert db. apply (reachable_written_ind records_shaped).
  - split; [|split; [|apply NoDup_nil_2]]; intros x Hx;
      by apply elem_of_nil in Hx.
  - intros db db' _ Hinv Hw. by eapply written_records_shaped.
Qed.



(** X19: in every reachable state the Return of a rental that is found
    and active succeeds, given an invoice identifier that is not yet
    stored and a number of billed days that converts to a float: the
    failures of Return after its writes do not occur on documents that
    the handlers themselves have written. *)
Theorem reachable_return_succeeds
    (env : Env) (rental_id : string) (payload : ReturnRentalRequest) (db : DB)
    (oid : ObjectId) (i : nat) (r : document) :
  reachable db →
  ObjectId_of_str rental_id = Some oid →
  first_match (ById oid) (db_rental db) = Some (i, r) →
  fields r !! "status" = Some (VStr "active") →
  new_id env ∉ (_id <$> db_invoice db) →
  (∀ ts, fields r !! "start_date" = Some (VDatetime ts) →
         float_of_int (billed_days
                         (datetime_sub (bson_datetime (now env 0)) ts))
         ≠ None) →
  ∃ rental_json invoice_json db',
    return_rental env rental_id payload db
    = (inr (rental_json, invoice_json), db').
Proof.
  intros Hreach Hoid Hr Hst Hfresh Hfloat.
  pose proof (reachable_consistent db Hreach) as [Hnd _ Hcar _].
  pose proof (reachable_records_shaped db Hreach) as (Hrent & Hrate & _).
  pose proof (first_match_Some _ _ _ _ Hr) as (Hi & _ & _).
  assert (r ∈ db_rental db) as Hrin by by eapply list_elem_of_lookup_2.
  destruct (Hcar r Hrin (proj2 (is_active_status r) Hst))
    as (c0 & Hc0 & Hid & _).
  assert (rental_car_oid r = inr (_id c0)) as Hco.
  { unfold rental_car_oid. rewrite Hid. cbn [ObjectId_of_value].
    apply ObjectId_ctor_str. }
  destruct (Hrent r Hrin) as [[name Hname] [ts Hts]].
  assert (eq_str (fields r !! "status") "returned" = false) as Hnot
    by by rewrite Hst.
  destruct (return_rental_outcomes env rental_id payload db)
    as [[Hbad _]|[(o & Ho & Hnone & _)|[(o & i' & r' & Ho & Hr' & Hyes & _)|
        [(o & i' & r' & n & Ho & Hr' & _ & Hco' & _)|
         [(o & i' & r' & co & Ho & Hr' & _ & Hco' & Hnone & _)|
          (o & i' & r' & co & j & c & Ho & Hr' & _ & Hco' & Hc & H)]]]]].
  - by rewrite (ObjectId_is_valid_of_str _ _ Hoid) in Hbad.
  - congruence.
  - assert (r' = r) as -> by congruence. congruence.
  - assert (r' = r) as -> by congruence. congruence.
  - assert (r' = r) as -> by congruence.
    assert (co = _id c0) as -> by congruence.
    apply first_match_ById_None in Hnone. exfalso. apply Hnone.
    apply list_elem_of_fmap. by exists c0.
  - assert (r' = r) as -> by congruence. cbn zeta in H.
    pose proof (first_match_Some _ _ _ _ Hc) as (Hj & _ & _).
    destruct (Hrate c (list_elem_of_lookup_2 _ _ _ Hj)) as [rate Hr8].
    destruct (float_of_int (billed_days
                (datetime_sub (bson_datetime (now env 0)) ts)))
      as [fdays|] eqn:Hdays; [|by destruct (Hfloat ts Hts)].
    destruct (compute_invoice_succeeds c (returned_rental env r)
                (Some (float_or_zero (tax_rate payload))) (now env 3)
                ts (bson_datetime (now env 0)) rate fdays name)
      as [data Hdata]; [| |  |done|done|].
    + cbn [returned_rental fields]. by rewrite lookup_union_r.
    + by apply lookup_union_Some_l.
    + cbn [returned_rental fields]. by rewrite lookup_union_r.
    + destruct H as [(n & Hn & _)|[(d & _ & Hdup & _)|(d & _ & _ & H)]];
        [congruence|done|eauto].
Qed.

Lemma reachable_return_succeeds_witness :
  ∃ rental_json invoice_json db',
    return_rental sample_return_env (ObjectId_str (sample_oid x02))
      ReturnRentalRequest_default db_rented
    = (inr (rental_json, invoice_json), db').
Proof.
  apply (reachable_return_succeeds sample_return_env
           (ObjectId_str (sample_oid x02)) ReturnRentalRequest_default
           db_rented (sample_oid x02) 0 (first_doc rental db_rented)).
  - unfold db_rented, db_with_car.
    apply reachable_request, reachable_request, reachable_empty.
  - vm_compute. reflexivity.
  - vm_compute. reflexivity.
  - vm_compute. reflexivity.
  - apply first_match_ById_None. vm_compute. reflexivity.
  - intros ts Hts.
    assert (ts = mk_datetime 2024 1 1 0 0 0 0) as ->.
    { assert (fields (first_doc rental db_rented) !! "start_date"
              = Some (VDatetime (mk_datetime 2024 1 1 0 0 0 0))) as H
        by (vm_compute; reflexivity).
      congruence. }
    vm_compute. discriminate.
Defined.
